(** * AI Co-Scientist backend: search tool, session registry and job runner

    A shallow embedding of [backend/app.py].  The module-level dictionaries
    [research_processes], [research_results] and [research_logs] and the
    process environment are fields of one record of process-wide state;
    Python dictionaries keyed by strings are [gmap string _]; values that
    travel through JSON are the inductive [value]; code that may raise runs
    in a small state-and-exception monad, and [try ... except Exception]
    is the combinator [try_except].

    Wall-clock time ([time.time()]) is an exact rational number of seconds.
    Calls to [logger] are not modelled. *)

From Stdlib Require Import Ascii String QArith Lqa.
From stdpp Require Import gmap strings list fin_maps pretty.

Set Warnings "-register-all".

(** ** Python values

    The values that arrive as JSON and the dictionaries the code builds;
    numbers are integers. *)

Inductive value : Type :=
| VNone
| VBool (b : bool)
| VInt (z : Z)
| VStr (s : string)
| VList (l : list value)
| VDict (kvs : list (string * value)).

(** Truth value of an object, as tested by [if x:] and [not x]. *)
Definition truthy (v : value) : bool :=
  match v with
  | VNone => false
  | VBool b => b
  | VInt z => negb (z =? 0)%Z
  | VStr s => negb (String.eqb s "")
  | VList l => match l with [] => false | _ => true end
  | VDict kvs => match kvs with [] => false | _ => true end
  end.

(** [d.get(k)] on a dictionary given by its items. *)
Fixpoint dict_get (kvs : list (string * value)) (k : string) : option value :=
  match kvs with
  | [] => None
  | (k', v) :: rest => if String.eqb k' k then Some v else dict_get rest k
  end.

(** [d.get(k)] with Python's default of [None]. *)
Definition get (kvs : list (string * value)) (k : string) : value :=
  default VNone (dict_get kvs k).

(** [len(x)] of a list value; other values have no elements here. *)
Definition len (v : value) : nat :=
  match v with
  | VList l => length l
  | _ => 0
  end.

(** ** Strings: [str.lower] and [str.strip]

    A character is a code point below 256; the case mapping and the
    whitespace set are Python's on that range. *)

Definition isspace (c : ascii) : bool :=
  let n := N_of_ascii c in
  ((9 <=? n) && (n <=? 13) || (28 <=? n) && (n <=? 32)
   || (n =? 133) || (n =? 160))%N.

Definition lower_char (c : ascii) : ascii :=
  let n := N_of_ascii c in
  if ((65 <=? n) && (n <=? 90)
      || (192 <=? n) && (n <=? 222) && negb (n =? 215))%N
  then ascii_of_N (n + 32)
  else c.

Fixpoint lower (s : string) : string :=
  match s with
  | EmptyString => EmptyString
  | String c s' => String (lower_char c) (lower s')
  end.

Fixpoint lstrip (s : string) : string :=
  match s with
  | EmptyString => EmptyString
  | String c s' => if isspace c then lstrip s' else s
  end.

Fixpoint rstrip (s : string) : string :=
  match s with
  | EmptyString => EmptyString
  | String c s' =>
      match rstrip s' with
      | EmptyString => if isspace c then EmptyString else String c EmptyString
      | t => String c t
      end
  end.

Definition strip (s : string) : string := rstrip (lstrip s).

(** ** Exceptions and state *)

(** The result of running code that may raise an [Exception]; [Raise e]
    carries [str(e)]. *)
Inductive outcome (A : Type) : Type :=
| Ok (a : A)
| Raise (e : string).
Arguments Ok {A} a.
Arguments Raise {A} e.

(** Effects on the state persist when the code raises. *)
Definition M (S A : Type) : Type := S -> outcome A * S.

Definition ret {S A} (a : A) : M S A := fun s => (Ok a, s).

Definition raise {S A} (e : string) : M S A := fun s => (Raise e, s).

Definition bind {S A B} (m : M S A) (k : A -> M S B) : M S B :=
  fun s =>
    match m s with
    | (Ok a, s') => k a s'
    | (Raise e, s') => (Raise e, s')
    end.

(** [try: m except Exception as e: h e] *)
Definition try_except {S A} (m : M S A) (h : string -> M S A) : M S A :=
  fun s =>
    match m s with
    | (Ok a, s') => (Ok a, s')
    | (Raise e, s') => h e s'
    end.

Definition modify {S} (f : S -> S) : M S unit := fun s => (Ok tt, f s).

Definition gets {S A} (f : S -> A) : M S A := fun s => (Ok (f s), s).

(** Run a computation on one component of a larger state. *)
Definition on_snd {T S A} (m : M S A) : M (T * S) A :=
  fun '(t, s) => let '(r, s') := m s in (r, (t, s')).

(** stdpp's notation [x ← m; k] for sequencing. *)
#[export] Instance M_ret {S} : MRet (M S) := fun A => @ret S A.
#[export] Instance M_bind {S} : MBind (M S) := fun A B k m => @bind S A B m k.

(** ** Time *)

(** A length of time that cannot be negative. *)
Record duration : Type := { dnum : N; dden : positive }.

Definition secs (d : duration) : Q := Z.of_N (dnum d) # dden d.

(** [int(t)]: truncation towards zero. *)
Definition int (t : Q) : Z := Z.quot (Qnum t) (Z.pos (Qden t)).

(** ** The process and its surroundings *)

(** One record returned by the arXiv client. [published] is [None] when the
    record has no such attribute, otherwise the date already formatted. *)
Record arxiv_result : Type := {
  title : string;
  authors : list string;
  summary : string;
  pdf_url : string;
  published : option string
}.

(** What the process does that an observer outside a single call can see:
    outbound searches and suspensions, stamped with the time they start,
    and assignments to [research_processes]. *)
Inductive event : Type :=
| EvArxiv (t : Q) (query : string)
| EvSerpapi (t : Q) (query : string) (api_key : value)
| EvSleep (t : Q) (d : Q)
| EvStatus (session_id : string) (status : string).

Record Globals : Type := {
  research_processes : gmap string string;
  research_results : gmap string value;
  research_logs : gmap string (list value);
  environ : gmap string string;
  now : Q;
  events : list event
}.

Definition set_research_processes (f : gmap string string -> gmap string string)
    (g : Globals) : Globals :=
  {| research_processes := f (research_processes g);
     research_results := research_results g;
     research_logs := research_logs g;
     environ := environ g;
     now := now g;
     events := events g |}.

Definition set_research_results (f : gmap string value -> gmap string value)
    (g : Globals) : Globals :=
  {| research_processes := research_processes g;
     research_results := f (research_results g);
     research_logs := research_logs g;
     environ := environ g;
     now := now g;
     events := events g |}.

Definition set_research_logs
    (f : gmap string (list value) -> gmap string (list value))
    (g : Globals) : Globals :=
  {| research_processes := research_processes g;
     research_results := research_results g;
     research_logs := f (research_logs g);
     environ := environ g;
     now := now g;
     events := events g |}.

Definition set_environ (f : gmap string string -> gmap string string)
    (g : Globals) : Globals :=
  {| research_processes := research_processes g;
     research_results := research_results g;
     research_logs := research_logs g;
     environ := f (environ g);
     now := now g;
     events := events g |}.

(** [crew.kickoff()] as seen from this code: the runtime calls the search
    tool any number of times, each query chosen from what came back before,
    takes its time in between, and then returns its result or raises. *)
Inductive runtime : Type :=
| Finish (r : outcome value)
| Search (query : string) (k : outcome value -> runtime)
| Wait (d : duration) (k : runtime).

(** What the code observes of the world outside it, as functions of the
    time of the call; the agent framework runs inside the process and can
    read all of its state. *)
Record Env : Type := {
  (** [datetime.now().strftime("%Y-%m-%d %H:%M:%S")] *)
  strftime : Q -> string;
  (** [arxiv.Search(query, max_results=5, ...).results()], read to the end *)
  arxiv_results : Q -> string -> outcome (list arxiv_result);
  arxiv_elapsed : Q -> string -> duration;
  (** importing [serpapi], then [GoogleSearch({q, api_key, num}).get_dict()] *)
  serpapi_get_dict : Q -> string -> value -> outcome (list (string * value));
  serpapi_elapsed : Q -> string -> duration;
  (** how much longer than asked [time.sleep] blocks *)
  sleep_overshoot : Q -> Q -> duration;
  (** the constructors [Agent(...)], [Task(...)] and [Crew(...)], by the
      name of what is built, and how long each of them takes *)
  construct : string -> Globals -> outcome unit;
  construct_elapsed : string -> Globals -> duration;
  (** [crew.kickoff()] for a research goal *)
  kickoff : string -> Globals -> runtime
}.

(** Time passes. *)
Definition advance (d : Q) (g : Globals) : Globals :=
  {| research_processes := research_processes g;
     research_results := research_results g;
     research_logs := research_logs g;
     environ := environ g;
     now := (now g + d)%Q;
     events := events g |}.

Definition emit (e : event) (g : Globals) : Globals :=
  {| research_processes := research_processes g;
     research_results := research_results g;
     research_logs := research_logs g;
     environ := environ g;
     now := now g;
     events := events g ++ [e] |}.

(** [research_processes[session_id] = status] *)
Definition set_status (session_id status : string) (g : Globals) : Globals :=
  emit (EvStatus session_id status)
    (set_research_processes (<[session_id := status]>) g).

(** [time.sleep(d)] *)
Definition sleep (E : Env) (d : Q) (g : Globals) : Globals :=
  advance (d + secs (sleep_overshoot E (now g) d))%Q
    (emit (EvSleep (now g) d) g).

(** An entry of the activity log. *)
Definition log_entry (timestamp agent action result : string) : value :=
  VDict [("timestamp", VStr timestamp); ("agent", VStr agent);
         ("action", VStr action); ("result", VStr result)].

(** [if session_id in research_logs: research_logs[session_id].append(entry)] *)
Definition log_append (session_id : string) (entry : value) (g : Globals)
    : Globals :=
  match research_logs g !! session_id with
  | Some l => set_research_logs (<[session_id := l ++ [entry]]>) g
  | None => g
  end.

(** ** EnhancedSearchTool *)

Record EnhancedSearchTool : Type := {
  api_keys : gmap string value;
  cache : gmap string value;
  name : string;
  description : string;
  last_query_time : Q;
  query_count : Z;
  max_queries_per_session : Z;
  (** set from outside after construction; [None] while the attribute
      does not exist *)
  session_id : option string
}.

(** [EnhancedSearchTool.__init__] *)
Definition EnhancedSearchTool_init (api_keys : gmap string value)
    : EnhancedSearchTool :=
  {| api_keys := api_keys;
     cache := ∅;
     name := "enhanced_literature_search";
     description := "Search scientific literature across multiple sources";
     last_query_time := 0%Q;
     query_count := 0%Z;
     max_queries_per_session := 20%Z;
     session_id := None |}.

Definition set_session_id (sid : string) (self : EnhancedSearchTool)
    : EnhancedSearchTool :=
  {| api_keys := api_keys self;
     cache := cache self;
     name := name self;
     description := description self;
     last_query_time := last_query_time self;
     query_count := query_count self;
     max_queries_per_session := max_queries_per_session self;
     session_id := Some sid |}.

Definition set_query_count (n : Z) (self : EnhancedSearchTool)
    : EnhancedSearchTool :=
  {| api_keys := api_keys self;
     cache := cache self;
     name := name self;
     description := description self;
     last_query_time := last_query_time self;
     query_count := n;
     max_queries_per_session := max_queries_per_session self;
     session_id := session_id self |}.

(** [self.cache[cache_key] = results; self.last_query_time = t] *)
Definition remember (cache_key : string) (results : value) (t : Q)
    (self : EnhancedSearchTool) : EnhancedSearchTool :=
  {| api_keys := api_keys self;
     cache := <[cache_key := results]> (cache self);
     name := name self;
     description := description self;
     last_query_time := t;
     query_count := query_count self;
     max_queries_per_session := max_queries_per_session self;
     session_id := session_id self |}.

(** The dictionary built from one arXiv record. *)
Definition paper (r : arxiv_result) : value :=
  VDict [("title", VStr (title r));
         ("authors", VList (VStr <$> authors r));
         ("summary", VStr (summary r));
         ("pdf_url", VStr (pdf_url r));
         ("published", from_option VStr VNone (published r))].

(** The body of the first [try]: the list comprehension over
    [search.results()]. Nothing is assigned when the client raises. *)
Definition arxiv_search (E : Env) (query : string) : M Globals value :=
  fun g =>
    let t := now g in
    let g := advance (secs (arxiv_elapsed E t query)) (emit (EvArxiv t query) g) in
    match arxiv_results E t query with
    | Ok rs => (Ok (VList (paper <$> rs)), g)
    | Raise e => (Raise e, g)
    end.

(** The body of the second [try]. *)
Definition web_search (E : Env) (query : string) (api_key : value)
    : M Globals value :=
  fun g =>
    let t := now g in
    let g :=
      advance (secs (serpapi_elapsed E t query))
        (emit (EvSerpapi t query api_key) g) in
    match serpapi_get_dict E t query api_key with
    | Ok d => (Ok (default (VList []) (dict_get d "organic_results")), g)
    | Raise e => (Raise e, g)
    end.

(** ["serpapi" in self.api_keys and self.api_keys["serpapi"]] *)
Definition serpapi_configured (self : EnhancedSearchTool) : bool :=
  match api_keys self !! "serpapi" with
  | Some k => truthy k
  | None => false
  end.

Definition limit_reached : value :=
  VDict [("error", VStr "Query limit reached");
         ("results", VDict [("arxiv", VList []); ("web", VList [])])].

(** The rate limiting step. *)
Definition rate_limit (E : Env) (self : EnhancedSearchTool) (g : Globals)
    : Globals :=
  let current_time := now g in
  if QMicromega.Qlt_bool (current_time - last_query_time self) 2
  then sleep E (2 - (current_time - last_query_time self)) g
  else g.

(** The two searches of a query that is within its budget. *)
Definition search_backends (E : Env) (self : EnhancedSearchTool)
    (query : string) : M Globals value :=
  arxiv ← try_except (arxiv_search E query) (fun _ => mret (VList []));
  web ←
    (if (len arxiv <? 3)%nat && serpapi_configured self
     then try_except
            (web_search E query (default VNone (api_keys self !! "serpapi")))
            (fun _ => mret (VList []))
     else mret (VList []));
  mret (VDict [("arxiv", arxiv); ("web", web)]).

(** The entry that [func] adds to the log of the session the tool is
    bound to, or of the session ["default"] when it is bound to none. *)
Definition log_search (E : Env) (self : EnhancedSearchTool) (query : string)
    (g : Globals) : Globals :=
  let sid := default "default" (session_id self) in
  log_append sid
    (log_entry (strftime E (now g)) "Search Tool" "Searching"
       ("Query: " +:+ query)) g.

(** [cache_key = query.lower().strip()] *)
Definition cache_key (query : string) : string := strip (lower query).

(** [EnhancedSearchTool.func]; the state is the tool and the process. *)
Definition func (E : Env) (query : string)
    : M (EnhancedSearchTool * Globals) value :=
  fun '(self, g) =>
    let g := log_search E self query g in
    match cache self !! cache_key query with
    | Some cached => (Ok cached, (self, g))
    | None =>
        let g := rate_limit E self g in
        let self := set_query_count (query_count self + 1) self in
        if (max_queries_per_session self <? query_count self)%Z
        then (Ok limit_reached, (self, g))
        else
          match search_backends E self query g with
          | (Ok results, g) =>
              (Ok results,
               (remember (cache_key query) results (now g) self, g))
          | (Raise e, g) => (Raise e, (self, g))
          end
    end.

(** ** [str] and [repr] of values *)

Definition single_quote : ascii := ascii_of_N 39.
Definition double_quote : ascii := ascii_of_N 34.
Definition backslash : ascii := ascii_of_N 92.

Definition hex_digit (n : N) : ascii :=
  if (n <? 10)%N then ascii_of_N (48 + n) else ascii_of_N (87 + n).

Definition isprintable (c : ascii) : bool :=
  let n := N_of_ascii c in
  ((32 <=? n) && (n <=? 126) || (161 <=? n) && negb (n =? 173))%N.

Definition repr_char (quote c : ascii) : string :=
  let n := N_of_ascii c in
  if Ascii.eqb c quote || Ascii.eqb c backslash
  then String backslash (String c "")
  else if (n =? 9)%N then "\t"
  else if (n =? 10)%N then "\n"
  else if (n =? 13)%N then "\r"
  else if isprintable c then String c ""
  else String backslash
         (String "x" (String (hex_digit (n / 16))
                        (String (hex_digit (n mod 16)) ""))).

Fixpoint contains (c : ascii) (s : string) : bool :=
  match s with
  | EmptyString => false
  | String c' s' => Ascii.eqb c c' || contains c s'
  end.

Fixpoint repr_body (quote : ascii) (s : string) : string :=
  match s with
  | EmptyString => EmptyString
  | String c s' => repr_char quote c +:+ repr_body quote s'
  end.

Definition repr_str (s : string) : string :=
  let quote :=
    if contains single_quote s && negb (contains double_quote s)
    then double_quote else single_quote in
  String quote (repr_body quote s +:+ String quote "").

Fixpoint repr (v : value) : string :=
  match v with
  | VNone => "None"
  | VBool true => "True"
  | VBool false => "False"
  | VInt z => pretty z
  | VStr s => repr_str s
  | VList l => "[" +:+ String.concat ", " (map repr l) +:+ "]"
  | VDict kvs =>
      "{"
      +:+ String.concat ", "
           (map (fun kv => let '(k, x) := kv in repr_str k +:+ ": " +:+ repr x)
              kvs)
      +:+ "}"
  end.

(** [str(v)], which is also how an f-string renders [v]. *)
Definition str (v : value) : string :=
  match v with
  | VStr s => s
  | _ => repr v
  end.

(** The name Python gives the type of a value in its error messages. *)
Definition type_name (v : value) : string :=
  match v with
  | VNone => "NoneType"
  | VBool _ => "bool"
  | VInt _ => "int"
  | VStr _ => "str"
  | VList _ => "list"
  | VDict _ => "dict"
  end.

(** [os.environ[key] = v] *)
Definition os_environ_set (key : string) (v : value) : M Globals unit :=
  match v with
  | VStr s =>
      if contains (ascii_of_N 0) s
      then raise "embedded null byte"
      else modify (set_environ (<[key := s]>))
  | _ => raise ("str expected, not " +:+ type_name v)
  end.

(** ** EnhancedAICoScientist *)

Record EnhancedAICoScientist : Type := {
  (** the attribute [session_id] of the orchestrator *)
  scientist_session_id : string;
  search_tool : EnhancedSearchTool
}.

(** [EnhancedAICoScientist.__init__] *)
Definition EnhancedAICoScientist_init (session_id : string)
    (openai_api_key serpapi_key : value) : M Globals EnhancedAICoScientist :=
  _ ← os_environ_set "OPENAI_API_KEY" openai_api_key;
  let api_keys : gmap string value :=
    if truthy serpapi_key then <["serpapi" := serpapi_key]> ∅ else ∅ in
  let search_tool := set_session_id session_id (EnhancedSearchTool_init api_keys) in
  _ ← modify (set_research_logs (<[session_id := []]>));
  mret {| scientist_session_id := session_id; search_tool := search_tool |}.

(** [EnhancedAICoScientist.log_activity] *)
Definition log_activity (E : Env) (self : EnhancedAICoScientist)
    (agent_name action result : string) (g : Globals) : Globals :=
  log_append (scientist_session_id self)
    (log_entry (strftime E (now g)) agent_name action result) g.

(** Run code that works on the search tool as code of the orchestrator
    that owns it. *)
Definition with_search_tool {A} (m : M (EnhancedSearchTool * Globals) A)
    : M (EnhancedAICoScientist * Globals) A :=
  fun '(self, g) =>
    let '(r, (tool, g')) := m (search_tool self, g) in
    (r, ({| scientist_session_id := scientist_session_id self;
            search_tool := tool |}, g')).

(** The runtime at work: every [Search] is a call of [func] on the tool,
    and time passes while the runtime is busy with something else. *)
Fixpoint run_crew (E : Env) (rt : runtime)
    : M (EnhancedSearchTool * Globals) value :=
  match rt with
  | Finish r => fun s => (r, s)
  | Search query k =>
      fun s => let '(r, s') := func E query s in run_crew E (k r) s'
  | Wait d k => fun s => run_crew E k (fst s, advance (secs d) (snd s))
  end.

(** [create_specialized_agents], [create_supervisor_agent],
    [create_research_tasks] and the construction of the [Crew]; each
    constructor takes its time, also when it raises. *)
Definition create_crew (E : Env) : M Globals unit :=
  let new (what : string) : M Globals unit :=
    fun g =>
      (construct E what g, advance (secs (construct_elapsed E what g)) g) in
  _ ← new "Generation Agent";
  _ ← new "Reflection Agent";
  _ ← new "Supervisor Agent";
  _ ← new "Generation Task";
  _ ← new "Reflection Task";
  new "Crew".

(** [EnhancedAICoScientist.run_research_process] *)
Definition run_research_process (E : Env) (research_goal : value)
    : M (EnhancedAICoScientist * Globals) value :=
  _ ← on_snd (create_crew E);
  self ← gets fst;
  _ ← on_snd (modify (fun g =>
         log_activity E self "Supervisor" "Process Started"
           ("Goal: " +:+ str research_goal) g));
  try_except
    (result ←
       with_search_tool
         (fun s => run_crew E (kickoff E (str research_goal) (snd s)) s);
     _ ← on_snd (modify (fun g =>
            log_activity E self "Supervisor" "Process Completed"
              "Research results generated" g));
     mret result)
    (fun e =>
       let error_msg := "Error in research process: " +:+ e in
       _ ← on_snd (modify (fun g =>
              log_activity E self "Supervisor" "Process Error" error_msg g));
       raise error_msg).

(** ** The worker *)

(** Run code of the orchestrator held in a local variable. *)
Definition with_local {L A} (l : L) (m : M (L * Globals) A) : M Globals A :=
  fun g => let '(r, (_, g')) := m (l, g) in (r, g').

(** The [try] block of [research_worker]. *)
Definition worker_try (E : Env) (session_id : string)
    (research_goal openai_api_key serpapi_key : value) : M Globals unit :=
  _ ← modify (set_status session_id "running");
  scientist ← EnhancedAICoScientist_init session_id openai_api_key serpapi_key;
  result ← with_local scientist (run_research_process E research_goal);
  _ ← modify (set_research_results (<[session_id := result]>));
  modify (set_status session_id "completed").

(** The [except Exception as e] block of [research_worker]. *)
Definition worker_except (session_id : string) (e : string) : M Globals unit :=
  let error_msg := "Error in research process: " +:+ e in
  _ ← modify (set_research_results
                (<[session_id := VDict [("error", VStr error_msg)]]>));
  modify (set_status session_id "error").

Definition research_worker (E : Env) (session_id : string)
    (research_goal openai_api_key serpapi_key : value) : M Globals unit :=
  try_except
    (worker_try E session_id research_goal openai_api_key serpapi_key)
    (worker_except session_id).

(** ** The HTTP handlers *)

(** A thread that has been started and has not run yet: the target is
    [research_worker], these are its arguments. *)
Record Thread : Type := {
  thread_session_id : string;
  thread_research_goal : value;
  thread_openai_api_key : value;
  thread_serpapi_key : value
}.

(** The thread's run. *)
Definition run_thread (E : Env) (t : Thread) : M Globals unit :=
  research_worker E (thread_session_id t) (thread_research_goal t)
    (thread_openai_api_key t) (thread_serpapi_key t).

(** A response: the JSON body and the HTTP status. *)
Definition response : Type := value * Z.

(** [f"research_{int(time.time())}"] *)
Definition new_session_id (t : Q) : string := "research_" +:+ pretty (int t).

(** [POST /api/start_research]; [data] is the JSON object of the request. *)
Definition start_research (data : list (string * value)) (g : Globals)
    : response * Globals * option Thread :=
  if negb (truthy (get data "research_goal"))
  then ((VDict [("status", VStr "error");
                ("message", VStr "Research goal is required")], 400%Z),
        g, None)
  else if negb (truthy (get data "openai_api_key"))
  then ((VDict [("status", VStr "error");
                ("message", VStr "OpenAI API key is required")], 400%Z),
        g, None)
  else
    let session_id := new_session_id (now g) in
    let g := set_research_logs (<[session_id := []]>) g in
    let thread :=
      {| thread_session_id := session_id;
         thread_research_goal := get data "research_goal";
         thread_openai_api_key := get data "openai_api_key";
         thread_serpapi_key := get data "serpapi_key" |} in
    ((VDict [("status", VStr "success");
             ("session_id", VStr session_id);
             ("message", VStr "Research process started")], 200%Z),
     g, Some thread).

(** [GET /api/research_status/<session_id>] *)
Definition research_status (session_id : string) (g : Globals) : response :=
  match research_processes g !! session_id with
  | None =>
      (VDict [("status", VStr "error");
              ("message", VStr "Session not found")], 404%Z)
  | Some process_status =>
      let logs := default [] (research_logs g !! session_id) in
      let result :=
        if String.eqb process_status "completed"
        then default VNone (research_results g !! session_id)
        else VNone in
      (VDict [("status", VStr "success");
              ("process_status", VStr process_status);
              ("logs", VList logs);
              ("result", result)], 200%Z)
  end.

(** [GET /api/health] *)
Definition health_check : response :=
  (VDict [("status", VStr "healthy")], 200%Z).

(** ** Observations on runs *)

Definition is_outbound (ev : event) : bool :=
  match ev with
  | EvArxiv _ _ | EvSerpapi _ _ _ => true
  | EvSleep _ _ | EvStatus _ _ => false
  end.

(** The outbound searches among some events. *)
Definition outbound_calls (evs : list event) : list event :=
  List.filter is_outbound evs.

(** The assignments to [research_processes] among some events, in order. *)
Fixpoint status_writes (evs : list event) : list (string * string) :=
  match evs with
  | [] => []
  | EvStatus sid st :: rest => (sid, st) :: status_writes rest
  | _ :: rest => status_writes rest
  end.

(** An outbound search starts no earlier than [t0]. *)
Definition not_before (t0 : Q) (ev : event) : Prop :=
  match ev with
  | EvArxiv t _ | EvSerpapi t _ _ => (t0 <= t)%Q
  | EvSleep _ _ | EvStatus _ _ => True
  end.

(** A secondary search carries the key [k]. *)
Definition carries_key (k : value) (ev : event) : Prop :=
  match ev with
  | EvSerpapi _ _ k' => k' = k
  | _ => True
  end.

Definition terminal (status : string) : Prop :=
  status = "completed" \/ status = "error".

(** Several calls of [func] in a row; the results are dropped. *)
Fixpoint run_queries (E : Env) (queries : list string)
    (s : EnhancedSearchTool * Globals) : EnhancedSearchTool * Globals :=
  match queries with
  | [] => s
  | q :: rest => run_queries E rest (snd (func E q s))
  end.

(** The body of a successful answer to a status poll. *)
Definition status_body (process_status : string) (logs : list value)
    (result : value) : value :=
  VDict [("status", VStr "success");
         ("process_status", VStr process_status);
         ("logs", VList logs);
         ("result", result)].

(** ** Sample surroundings, for running the code on examples *)

Definition instant : duration := {| dnum := 0; dden := 1 |}.

(** Every search finds nothing at once, the framework builds its objects,
    and the runtime returns a report without searching. *)
Definition quiet : Env :=
  {| strftime := fun _ => "2024-01-01 00:00:00";
     arxiv_results := fun _ _ => Ok [];
     arxiv_elapsed := fun _ _ => instant;
     serpapi_get_dict := fun _ _ _ => Ok [];
     serpapi_elapsed := fun _ _ => instant;
     sleep_overshoot := fun _ _ => instant;
     construct := fun _ _ => Ok tt;
     construct_elapsed := fun _ _ => instant;
     kickoff := fun _ _ => Finish (Ok (VStr "report")) |}.

(** The framework refuses to build an agent. *)
Definition agents_fail : Env :=
  {| strftime := strftime quiet;
     arxiv_results := arxiv_results quiet;
     arxiv_elapsed := arxiv_elapsed quiet;
     serpapi_get_dict := serpapi_get_dict quiet;
     serpapi_elapsed := serpapi_elapsed quiet;
     sleep_overshoot := sleep_overshoot quiet;
     construct := fun _ _ => Raise "validation error for Agent";
     construct_elapsed := construct_elapsed quiet;
     kickoff := kickoff quiet |}.

(** The arXiv client raises. *)
Definition arxiv_down : Env :=
  {| strftime := strftime quiet;
     arxiv_results := fun _ _ => Raise "HTTP 503";
     arxiv_elapsed := arxiv_elapsed quiet;
     serpapi_get_dict :=
       fun _ _ _ => Ok [("organic_results", VList [VStr "hit"])];
     serpapi_elapsed := serpapi_elapsed quiet;
     sleep_overshoot := sleep_overshoot quiet;
     construct := construct quiet;
     construct_elapsed := construct_elapsed quiet;
     kickoff := kickoff quiet |}.

(** A process that has just started, at a time of day. *)
Definition boot : Globals :=
  {| research_processes := ∅;
     research_results := ∅;
     research_logs := ∅;
     environ := ∅;
     now := 1700000000%Q;
     events := [] |}.

Definition twenty_queries : list string :=
  ["q1"; "q2"; "q3"; "q4"; "q5"; "q6"; "q7"; "q8"; "q9"; "q10";
   "q11"; "q12"; "q13"; "q14"; "q15"; "q16"; "q17"; "q18"; "q19"; "q20"].

(** A tool holding a secondary key, after twenty distinct queries. *)
Definition spent : EnhancedSearchTool * Globals :=
  run_queries quiet twenty_queries
    (EnhancedSearchTool_init (<["serpapi" := VStr "serp-key"]> ∅), boot).

Definition valid_request : list (string * value) :=
  [("research_goal", VStr "protein folding");
   ("openai_api_key", VStr "sk-test")].

(** What the two searches of a query return when they start at [t]:
    nothing when the client raises. *)
Definition academic (E : Env) (t : Q) (query : string) : value :=
  match arxiv_results E t query with
  | Ok rs => VList (paper <$> rs)
  | Raise _ => VList []
  end.

Definition organic (E : Env) (t : Q) (query : string) (api_key : value)
    : value :=
  match serpapi_get_dict E t query api_key with
  | Ok d => default (VList []) (dict_get d "organic_results")
  | Raise _ => VList []
  end.

(** The state in which the budget is checked and the searches start. *)
Definition admitted (E : Env) (self : EnhancedSearchTool) (query : string)
    (g : Globals) : Globals :=
  rate_limit E self (log_search E self query g).

(** What does not belong to the search tool: the registry of sessions, the
    environment and the record of status writes. *)
Definition control (g : Globals)
    : gmap string string * gmap string value * gmap string string
      * list (string * string) :=
  (research_processes g, research_results g, environ g,
   status_writes (events g)).

(** The tool after any number of further calls of [func], whatever else
    happened to the process in between. *)
Inductive evolves (E : Env) : EnhancedSearchTool -> EnhancedSearchTool -> Prop :=
| evolves_refl self : evolves E self self
| evolves_call self self1 self2 query g r g' :
    evolves E self self1 ->
    func E query (self1, g) = (r, (self2, g')) ->
    evolves E self self2.

(** The registry of sessions and the record of status writes. *)
Definition registry (g : Globals)
    : gmap string string * gmap string value * list (string * string) :=
  (research_processes g, research_results g, status_writes (events g)).

(** A secondary search is made by a tool that has a key, with that key. *)
Definition own_key (self : EnhancedSearchTool) (ev : event) : Prop :=
  match ev with
  | EvSerpapi _ _ k => api_keys self !! "serpapi" = Some k
  | _ => True
  end.

(** The process after a thread, if one was started, has run to its end. *)
Definition run_spawned (E : Env) (t : option Thread) (g : Globals) : Globals :=
  match t with
  | Some t => snd (run_thread E t g)
  | None => g
  end.

(** A runtime that reports the key it finds in the environment, the way
    the agent framework picks up [OPENAI_API_KEY]. *)
Definition reads_key : Env :=
  {| strftime := strftime quiet;
     arxiv_results := arxiv_results quiet;
     arxiv_elapsed := arxiv_elapsed quiet;
     serpapi_get_dict := serpapi_get_dict quiet;
     serpapi_elapsed := serpapi_elapsed quiet;
     sleep_overshoot := sleep_overshoot quiet;
     construct := construct quiet;
     construct_elapsed := construct_elapsed quiet;
     kickoff :=
       fun _ g =>
         Finish (Ok (VStr (default "" (environ g !! "OPENAI_API_KEY")))) |}.

(** The body of the answer to a poll for a session that is not known. *)
Definition not_found : value :=
  VDict [("status", VStr "error"); ("message", VStr "Session not found")].

(** ** Further observations *)

Definition is_arxiv (ev : event) : bool :=
  match ev with
  | EvArxiv _ _ => true
  | _ => false
  end.

Definition is_serpapi (ev : event) : bool :=
  match ev with
  | EvSerpapi _ _ _ => true
  | _ => false
  end.

(** How many of some events are of a kind. *)
Definition count_events (kind : event -> bool) (evs : list event) : nat :=
  length (List.filter kind evs).

(** How many more queries the tool will send out. *)
Definition remaining (self : EnhancedSearchTool) : Z :=
  Z.max 0 (max_queries_per_session self - query_count self).

(** A value of the shape that [func] builds from its two searches. *)
Definition is_bundle (v : value) : Prop :=
  exists arxiv web, v = VDict [("arxiv", arxiv); ("web", web)].

(** The log entry of a search made at time [t]. *)
Definition search_entry (E : Env) (t : Q) (query : string) : value :=
  log_entry (strftime E t) "Search Tool" "Searching" ("Query: " +:+ query).

(** The runtime works for three seconds, then raises; the building of
    each object of the framework takes half a second, and the clock is
    shown as its whole seconds. *)
Definition runtime_raises : Env :=
  {| strftime := fun t => pretty (int t);
     arxiv_results := arxiv_results quiet;
     arxiv_elapsed := arxiv_elapsed quiet;
     serpapi_get_dict := serpapi_get_dict quiet;
     serpapi_elapsed := serpapi_elapsed quiet;
     sleep_overshoot := sleep_overshoot quiet;
     construct := construct quiet;
     construct_elapsed := fun _ _ => {| dnum := 1; dden := 2 |};
     kickoff :=
       fun _ _ =>
         Wait {| dnum := 3; dden := 1 |}
           (Finish (Raise "rate limit exceeded")) |}.

(** The runtime searches twice for the same text, then reports. *)
Definition searches_twice : Env :=
  {| strftime := strftime quiet;
     arxiv_results := arxiv_results quiet;
     arxiv_elapsed := arxiv_elapsed quiet;
     serpapi_get_dict := serpapi_get_dict quiet;
     serpapi_elapsed := serpapi_elapsed quiet;
     sleep_overshoot := sleep_overshoot quiet;
     construct := construct quiet;
     construct_elapsed := construct_elapsed quiet;
     kickoff :=
       fun _ _ =>
         Search "Graph Learning"
           (fun _ => Search "graph learning "
                       (fun _ => Finish (Ok (VStr "report")))) |}.

(** A process in which one session has finished and has a log. *)
Definition busy : Globals :=
  run_spawned quiet (snd (start_research valid_request boot))
    (snd (fst (start_research valid_request boot))).

(** A string of whitespace only. *)
Fixpoint all_space (s : string) : bool :=
  match s with
  | EmptyString => true
  | String c s' => isspace c && all_space s'
  end.

(** A suspension lasts more than no time and at most two seconds. *)
Definition short_sleep (ev : event) : Prop :=
  match ev with
  | EvSleep _ d => (0 < d)%Q /\ (d <= 2)%Q
  | _ => True
  end.

(** The process at another time, with everything else as it is. *)
Definition with_now (t : Q) (g : Globals) : Globals :=
  {| research_processes := research_processes g;
     research_results := research_results g;
     research_logs := research_logs g;
     environ := environ g;
     now := t;
     events := events g |}.

(** What [research_worker] does between marking the session as running
    and recording how it ended: it builds the orchestrator and runs the
    research process. *)
Definition orchestrate (E : Env) (session_id : string)
    (research_goal openai_api_key serpapi_key : value) : M Globals value :=
  scientist ← EnhancedAICoScientist_init session_id openai_api_key serpapi_key;
  with_local scientist (run_research_process E research_goal).

(** What the worker stores when the orchestrator raised [e]. *)
Definition error_result (e : string) : value :=
  VDict [("error", VStr ("Error in research process: " +:+ e))].

(** * Properties *)

(** ** Time and events *)

Lemma secs_nonneg (d : duration) : (0 <= secs d)%Q.
Proof.
  unfold secs, Qle. simpl. lia.
Qed.

Lemma status_writes_app (l1 l2 : list event) :
  status_writes (l1 ++ l2) = status_writes l1 ++ status_writes l2.
Proof.
  induction l1 as [|ev l1 IH]; simpl; [reflexivity|].
  destruct ev; simpl; rewrite IH; reflexivity.
Qed.

Lemma outbound_calls_app (l1 l2 : list event) :
  outbound_calls (l1 ++ l2) = outbound_calls l1 ++ outbound_calls l2.
Proof.
  unfold outbound_calls. apply List.filter_app.
Qed.

(** ** The steps of [func] *)

Lemma log_append_control sid entry g :
  control (log_append sid entry g) = control g.
Proof.
  unfold log_append. destruct (research_logs g !! sid); reflexivity.
Qed.

Lemma log_append_now sid entry g : now (log_append sid entry g) = now g.
Proof.
  unfold log_append. destruct (research_logs g !! sid); reflexivity.
Qed.

Lemma log_append_events sid entry g :
  events (log_append sid entry g) = events g.
Proof.
  unfold log_append. destruct (research_logs g !! sid); reflexivity.
Qed.

Lemma log_append_other sid sid' entry g :
  sid <> sid' ->
  research_logs (log_append sid entry g) !! sid' = research_logs g !! sid'.
Proof.
  intros Hne. unfold log_append.
  destruct (research_logs g !! sid); [|reflexivity].
  simpl. apply lookup_insert_ne. exact Hne.
Qed.

Lemma rate_limit_events E self g :
  events (rate_limit E self g) =
  events g ++
    (if QMicromega.Qlt_bool (now g - last_query_time self) 2
     then [EvSleep (now g) (2 - (now g - last_query_time self))]
     else []).
Proof.
  unfold rate_limit.
  destruct (QMicromega.Qlt_bool (now g - last_query_time self) 2); simpl.
  - reflexivity.
  - symmetry. apply app_nil_r.
Qed.

Lemma rate_limit_control E self g :
  control (rate_limit E self g) = control g.
Proof.
  unfold control. rewrite rate_limit_events, status_writes_app.
  unfold rate_limit.
  destruct (QMicromega.Qlt_bool (now g - last_query_time self) 2); simpl;
    rewrite app_nil_r; reflexivity.
Qed.

(** After the rate limiting step at least two seconds have passed since the
    time the tool last recorded. *)
Lemma rate_limit_now E self g :
  (last_query_time self + 2 <= now (rate_limit E self g))%Q.
Proof.
  unfold rate_limit.
  destruct (QMicromega.Qlt_bool (now g - last_query_time self) 2) eqn:Hlt.
  - unfold sleep. simpl.
    pose proof (secs_nonneg
      (sleep_overshoot E (now g) (2 - (now g - last_query_time self)))).
    lra.
  - assert (~ (now g - last_query_time self < 2)%Q) as Hge.
    { intros H. apply QMicromega.Qlt_bool_iff in H. congruence. }
    lra.
Qed.

(** The rate limiting step suspends the caller exactly when less than two
    seconds have passed, and never makes time run backwards. *)
Lemma rate_limit_mono E self g : (now g <= now (rate_limit E self g))%Q.
Proof.
  unfold rate_limit.
  destruct (QMicromega.Qlt_bool (now g - last_query_time self) 2) eqn:Hlt.
  - apply QMicromega.Qlt_bool_iff in Hlt. unfold sleep. simpl.
    pose proof (secs_nonneg
      (sleep_overshoot E (now g) (2 - (now g - last_query_time self)))).
    lra.
  - lra.
Qed.

(** The searches of a query within its budget, spelled out: the academic
    search always runs; the secondary one runs when fewer than three
    records came back and a key is configured. Neither raises. *)
Lemma search_backends_spec E self query g :
  let t1 := now g in
  let arxiv := academic E t1 query in
  let g2 := advance (secs (arxiv_elapsed E t1 query)) (emit (EvArxiv t1 query) g) in
  let key := default VNone (api_keys self !! "serpapi") in
  let attempt := (len arxiv <? 3)%nat && serpapi_configured self in
  search_backends E self query g =
  (Ok (VDict [("arxiv", arxiv);
              ("web", if attempt then organic E (now g2) query key
                      else VList [])]),
   if attempt
   then advance (secs (serpapi_elapsed E (now g2) query))
          (emit (EvSerpapi (now g2) query key) g2)
   else g2).
Proof.
  unfold search_backends, academic, organic, mbind, M_bind, bind, try_except,
    arxiv_search, web_search, mret, M_ret, ret.
  simpl.
  destruct (arxiv_results E (now g) query) as [rs|e]; simpl.
  - destruct ((length (paper <$> rs) <? 3)%nat && serpapi_configured self);
      simpl; [|reflexivity].
    destruct (serpapi_get_dict E _ query _); reflexivity.
  - destruct (serpapi_configured self); simpl; [|reflexivity].
    destruct (serpapi_get_dict E _ query _); reflexivity.
Qed.

(** A query found in the cache: only the log entry is written. *)
Lemma func_hit E self query g cached :
  cache self !! cache_key query = Some cached ->
  func E query (self, g) = (Ok cached, (self, log_search E self query g)).
Proof.
  intros Hhit. unfold func. rewrite Hhit. reflexivity.
Qed.

(** A query not in the cache, with the budget used up. *)
Lemma func_over_budget E self query g :
  cache self !! cache_key query = None ->
  (max_queries_per_session self <= query_count self)%Z ->
  func E query (self, g) =
  (Ok limit_reached,
   (set_query_count (query_count self + 1) self, admitted E self query g)).
Proof.
  intros Hmiss Hmax. unfold func, admitted. rewrite Hmiss. simpl.
  destruct (max_queries_per_session self <? query_count self + 1)%Z eqn:Hlt;
    [reflexivity|].
  apply Z.ltb_ge in Hlt. lia.
Qed.

(** A query not in the cache, within the budget. *)
Lemma func_within_budget E self query g :
  cache self !! cache_key query = None ->
  (query_count self < max_queries_per_session self)%Z ->
  let g1 := admitted E self query g in
  let self1 := set_query_count (query_count self + 1) self in
  let r := search_backends E self1 query g1 in
  exists results,
    fst r = Ok results /\
    func E query (self, g) =
    (Ok results,
     (remember (cache_key query) results (now (snd r)) self1, snd r)).
Proof.
  intros Hmiss Hmax g1 self1 r.
  unfold func. rewrite Hmiss. fold (admitted E self query g). fold g1.
  fold self1. simpl.
  destruct (max_queries_per_session self <? query_count self + 1)%Z eqn:Hlt.
  { apply Z.ltb_lt in Hlt. lia. }
  fold r. subst r. rewrite search_backends_spec. simpl.
  eexists. split; reflexivity.
Qed.

(** [func] never raises. *)
Lemma func_returns E query s :
  exists v s', func E query s = (Ok v, s').
Proof.
  destruct s as [self g].
  destruct (cache self !! cache_key query) as [cached|] eqn:Hc.
  - rewrite (func_hit _ _ _ _ _ Hc). eauto.
  - destruct (Z_lt_le_dec (query_count self) (max_queries_per_session self))
      as [Hlt|Hge].
    + destruct (func_within_budget E self query g Hc Hlt) as (r & _ & ->).
      eauto.
    + rewrite (func_over_budget _ _ _ _ Hc Hge). eauto.
Qed.

(** The counter goes up by one on every query that is not in the cache,
    and only then; the ceiling never moves. *)
Lemma func_query_count E self query g :
  query_count (fst (snd (func E query (self, g)))) =
  match cache self !! cache_key query with
  | Some _ => query_count self
  | None => (query_count self + 1)%Z
  end.
Proof.
  destruct (cache self !! cache_key query) as [cached|] eqn:Hc.
  - rewrite (func_hit _ _ _ _ _ Hc). reflexivity.
  - destruct (Z_lt_le_dec (query_count self) (max_queries_per_session self))
      as [Hlt|Hge].
    + destruct (func_within_budget E self query g Hc Hlt) as (r & _ & ->).
      reflexivity.
    + rewrite (func_over_budget _ _ _ _ Hc Hge). reflexivity.
Qed.

Lemma func_max_queries E self query g :
  max_queries_per_session (fst (snd (func E query (self, g)))) =
  max_queries_per_session self.
Proof.
  destruct (cache self !! cache_key query) as [cached|] eqn:Hc.
  - rewrite (func_hit _ _ _ _ _ Hc). reflexivity.
  - destruct (Z_lt_le_dec (query_count self) (max_queries_per_session self))
      as [Hlt|Hge].
    + destruct (func_within_budget E self query g Hc Hlt) as (r & _ & ->).
      reflexivity.
    + rewrite (func_over_budget _ _ _ _ Hc Hge). reflexivity.
Qed.

Lemma func_api_keys E self query g :
  api_keys (fst (snd (func E query (self, g)))) = api_keys self.
Proof.
  destruct (cache self !! cache_key query) as [cached|] eqn:Hc.
  - rewrite (func_hit _ _ _ _ _ Hc). reflexivity.
  - destruct (Z_lt_le_dec (query_count self) (max_queries_per_session self))
      as [Hlt|Hge].
    + destruct (func_within_budget E self query g Hc Hlt) as (r & _ & ->).
      reflexivity.
    + rewrite (func_over_budget _ _ _ _ Hc Hge). reflexivity.
Qed.

(** An entry of the cache is never replaced or removed. *)
Lemma func_cache_keeps E self query g k v :
  cache self !! k = Some v ->
  cache (fst (snd (func E query (self, g)))) !! k = Some v.
Proof.
  intros Hk.
  destruct (cache self !! cache_key query) as [cached|] eqn:Hc.
  - rewrite (func_hit _ _ _ _ _ Hc). exact Hk.
  - destruct (Z_lt_le_dec (query_count self) (max_queries_per_session self))
      as [Hlt|Hge].
    + destruct (func_within_budget E self query g Hc Hlt) as (r & _ & ->).
      simpl. rewrite lookup_insert_ne; [exact Hk|].
      intros Heq. subst k. congruence.
    + rewrite (func_over_budget _ _ _ _ Hc Hge). exact Hk.
Qed.

Lemma evolves_cache_keeps E self self' k v :
  evolves E self self' ->
  cache self !! k = Some v ->
  cache self' !! k = Some v.
Proof.
  induction 1 as [self|self self1 self2 query g r g' _ IH Hcall];
    intros Hk; [exact Hk|].
  specialize (IH Hk).
  pose proof (func_cache_keeps E self1 query g k v IH) as Hkeep.
  rewrite Hcall in Hkeep. exact Hkeep.
Qed.

Lemma evolves_max_queries E self self' :
  evolves E self self' ->
  max_queries_per_session self' = max_queries_per_session self.
Proof.
  induction 1 as [self|self self1 self2 query g r g' _ IH Hcall];
    [reflexivity|].
  pose proof (func_max_queries E self1 query g) as Hmax.
  rewrite Hcall in Hmax. simpl in Hmax. congruence.
Qed.

(** ** Budget *)

(** C3, as amended. Once the tool has counted twenty queries that were not
    in the cache, a further query that is not in the cache raises the
    counter by one, makes no outbound call, leaves the cache and the
    recorded time as they were, and returns the value
    [{"error": "Query limit reached", "results": {"arxiv": [], "web": []}}],
    in which the two empty lists sit under the key ["results"]. *)
Theorem C3_budget_exhausted E self query g :
  max_queries_per_session self = 20%Z ->
  (20 <= query_count self)%Z ->
  cache self !! cache_key query = None ->
  exists self' g',
    func E query (self, g) = (Ok limit_reached, (self', g')) /\
    query_count self' = (query_count self + 1)%Z /\
    cache self' = cache self /\
    last_query_time self' = last_query_time self /\
    outbound_calls (events g') = outbound_calls (events g).
Proof.
  intros Hmax Hcount Hmiss.
  exists (set_query_count (query_count self + 1) self),
    (admitted E self query g).
  split.
  { apply func_over_budget; [exact Hmiss | lia]. }
  repeat split.
  unfold admitted. rewrite rate_limit_events, outbound_calls_app.
  unfold log_search. rewrite log_append_events.
  destruct (QMicromega.Qlt_bool _ 2); simpl; apply app_nil_r.
Qed.

Lemma C3_budget_exhausted_witness :
  exists self' g',
    func quiet "q21" spent = (Ok limit_reached, (self', g')) /\
    query_count self' = (query_count (fst spent) + 1)%Z /\
    cache self' = cache (fst spent) /\
    last_query_time self' = last_query_time (fst spent) /\
    outbound_calls (events g') = outbound_calls (events (snd spent)).
Proof.
  pose proof (C3_budget_exhausted quiet (fst spent) "q21" (snd spent)) as H.
  rewrite <- surjective_pairing in H. apply H.
  - vm_compute. reflexivity.
  - vm_compute. discriminate.
  - vm_compute. reflexivity.
Defined.

(** C3, as stated, fails: the value returned after twenty queries has the
    keys ["error"] and ["results"] only; it has no list of academic results
    and no list of web results of its own. *)
Lemma C3_counterexample :
  query_count (fst spent) = 20%Z /\
  cache (fst spent) !! cache_key "q21" = None /\
  exists kvs,
    fst (func quiet "q21" spent) = Ok (VDict kvs) /\
    dict_get kvs "error" = Some (VStr "Query limit reached") /\
    dict_get kvs "web" = None /\
    dict_get kvs "academic" = None /\
    dict_get kvs "arxiv" = None /\
    VDict kvs <> VDict [("error", VStr "Query limit reached");
                        ("academic", VList []); ("web", VList [])].
Proof.
  split; [vm_compute; reflexivity|].
  split; [vm_compute; reflexivity|].
  exists [("error", VStr "Query limit reached");
          ("results", VDict [("arxiv", VList []); ("web", VList [])])].
  split; [vm_compute; reflexivity|].
  repeat split; try reflexivity. discriminate.
Qed.

(** ** Cache *)

(** C4, as amended. When a query is answered from the cache or within the
    budget, every later query of the tool with the same normalised text
    returns exactly the bundle the first one left in the cache, and does
    nothing but write its log entry: the tool is unchanged (the counter is
    not raised), no event is produced (no outbound call, no suspension) and
    no time passes. *)
Theorem C4_repeated_query E self q1 q2 g r1 self1 g1 self2 h :
  cache_key q1 = cache_key q2 ->
  is_Some (cache self !! cache_key q1)
  \/ (query_count self < max_queries_per_session self)%Z ->
  func E q1 (self, g) = (r1, (self1, g1)) ->
  evolves E self1 self2 ->
  exists bundle h',
    r1 = Ok bundle /\
    cache self1 !! cache_key q1 = Some bundle /\
    func E q2 (self2, h) = (Ok bundle, (self2, h')) /\
    events h' = events h /\
    now h' = now h.
Proof.
  intros Hkey Hfirst Hcall Hlater.
  assert (exists bundle,
             r1 = Ok bundle /\ cache self1 !! cache_key q1 = Some bundle)
    as (bundle & -> & Hcached).
  { destruct (cache self !! cache_key q1) as [cached|] eqn:Hc.
    - rewrite (func_hit _ _ _ _ _ Hc) in Hcall.
      inversion Hcall; subst. eauto.
    - destruct Hfirst as [[v Hv]|Hlt]; [discriminate|].
      destruct (func_within_budget E self q1 g Hc Hlt) as (r & _ & Heq).
      rewrite Heq in Hcall. inversion Hcall; subst.
      exists r. split; [reflexivity|]. simpl. apply lookup_insert_eq. }
  pose proof (evolves_cache_keeps _ _ _ _ _ Hlater Hcached) as Hstill.
  rewrite Hkey in Hstill.
  exists bundle, (log_search E self2 q2 h).
  split; [reflexivity|]. split; [exact Hcached|].
  split; [apply func_hit; exact Hstill|].
  unfold log_search. split; [apply log_append_events | apply log_append_now].
Qed.

Lemma C4_repeated_query_witness :
  exists bundle h',
    Ok (A := value) (VDict [("arxiv", VList []); ("web", VList [])])
      = Ok bundle /\
    cache (fst (snd (func quiet "Protein Folding"
                       (EnhancedSearchTool_init ∅, boot))))
      !! cache_key "Protein Folding" = Some bundle /\
    func quiet "  protein folding "
      (fst (snd (func quiet "Protein Folding"
                   (EnhancedSearchTool_init ∅, boot))), boot)
      = (Ok bundle,
         (fst (snd (func quiet "Protein Folding"
                      (EnhancedSearchTool_init ∅, boot))), h')) /\
    events h' = events boot /\
    now h' = now boot.
Proof.
  apply (C4_repeated_query quiet (EnhancedSearchTool_init ∅)
           "Protein Folding" "  protein folding " boot _ _
           (snd (snd (func quiet "Protein Folding"
                        (EnhancedSearchTool_init ∅, boot))))).
  - vm_compute. reflexivity.
  - right. vm_compute. reflexivity.
  - vm_compute. reflexivity.
  - apply evolves_refl.
Defined.

(** C4, as stated, fails: a query that meets the exhausted budget leaves
    nothing in the cache, so the same text asked again is counted
    again. *)
Lemma C4_counterexample :
  let s1 := snd (func quiet "q21" spent) in
  let s2 := snd (func quiet "Q21 " s1) in
  cache_key "Q21 " = cache_key "q21" /\
  cache (fst spent) !! cache_key "q21" = None /\
  cache (fst s1) !! cache_key "Q21 " = None /\
  query_count (fst s1) = 21%Z /\
  query_count (fst s2) = 22%Z.
Proof.
  vm_compute. repeat split; reflexivity.
Qed.

(** ** The two searches *)

(** A query that reaches the searches, in full: what it returns, which
    outbound calls it makes and when, and what it records. *)
Lemma func_within_budget_run E self query g :
  cache self !! cache_key query = None ->
  (query_count self < max_queries_per_session self)%Z ->
  let g1 := admitted E self query g in
  let arxiv := academic E (now g1) query in
  let t2 := (now g1 + secs (arxiv_elapsed E (now g1) query))%Q in
  let key := default VNone (api_keys self !! "serpapi") in
  let attempt := (len arxiv <? 3)%nat && serpapi_configured self in
  exists self' g',
    func E query (self, g) =
      (Ok (VDict [("arxiv", arxiv);
                  ("web", if attempt then organic E t2 query key
                          else VList [])]),
       (self', g')) /\
    events g' =
      events g1 ++
      EvArxiv (now g1) query ::
      (if attempt then [EvSerpapi t2 query key] else []) /\
    last_query_time self' = now g' /\
    (t2 <= now g')%Q /\
    query_count self' = (query_count self + 1)%Z /\
    control g' = control g1.
Proof.
  intros Hmiss Hlt g1 arxiv t2 key attempt.
  destruct (func_within_budget E self query g Hmiss Hlt) as (r & Hr & ->).
  rewrite search_backends_spec in Hr |- *. simpl in Hr |- *.
  fold g1 in Hr |- *. fold arxiv in Hr |- *. fold t2 in Hr |- *.
  change (api_keys (set_query_count (query_count self + 1) self))
    with (api_keys self) in Hr |- *.
  change (serpapi_configured (set_query_count (query_count self + 1) self))
    with (serpapi_configured self) in Hr |- *.
  fold key in Hr |- *. fold attempt in Hr |- *.
  inversion Hr as [Hres]. clear Hr.
  eexists _, _. split; [reflexivity|].
  pose proof (secs_nonneg (serpapi_elapsed E t2 query)).
  destruct attempt; simpl; repeat split; try reflexivity.
  - rewrite <- app_assoc. reflexivity.
  - unfold t2 in *. lra.
  - unfold control. simpl. rewrite !status_writes_app, !app_nil_r.
    reflexivity.
  - unfold t2. lra.
  - unfold control. simpl. rewrite status_writes_app, app_nil_r.
    reflexivity.
Qed.

(** C7. When the academic search raises, the exception stops at its
    [except]: [func] returns a bundle whose academic list is empty, and
    the secondary search is attempted all the same whenever a secondary
    key is configured. *)
Theorem C7_academic_failure_contained E self query g e :
  cache self !! cache_key query = None ->
  (query_count self < max_queries_per_session self)%Z ->
  arxiv_results E (now (admitted E self query g)) query = Raise e ->
  exists web self' g',
    func E query (self, g) =
      (Ok (VDict [("arxiv", VList []); ("web", web)]), (self', g')) /\
    (serpapi_configured self = true ->
     exists t,
       events g' =
       events (admitted E self query g) ++
       [EvArxiv (now (admitted E self query g)) query;
        EvSerpapi t query (default VNone (api_keys self !! "serpapi"))]).
Proof.
  intros Hmiss Hlt Hraise.
  destruct (func_within_budget_run E self query g Hmiss Hlt)
    as (self' & g' & Hcall & Hev & _).
  unfold academic in Hcall, Hev. rewrite Hraise in Hcall, Hev.
  simpl in Hcall, Hev.
  eexists _, self', g'. split; [exact Hcall|].
  intros Hkey. rewrite Hkey in Hev. eexists. exact Hev.
Qed.

Lemma C7_academic_failure_contained_witness :
  exists web self' g',
    func arxiv_down "quantum foo"
      (EnhancedSearchTool_init (<["serpapi" := VStr "serp-key"]> ∅), boot) =
      (Ok (VDict [("arxiv", VList []); ("web", web)]), (self', g')) /\
    (serpapi_configured
       (EnhancedSearchTool_init (<["serpapi" := VStr "serp-key"]> ∅)) = true ->
     exists t,
       events g' =
       events (admitted arxiv_down
                 (EnhancedSearchTool_init (<["serpapi" := VStr "serp-key"]> ∅))
                 "quantum foo" boot) ++
       [EvArxiv
          (now (admitted arxiv_down
                  (EnhancedSearchTool_init
                     (<["serpapi" := VStr "serp-key"]> ∅))
                  "quantum foo" boot)) "quantum foo";
        EvSerpapi t "quantum foo"
          (default VNone
             (api_keys
                (EnhancedSearchTool_init
                   (<["serpapi" := VStr "serp-key"]> ∅)) !! "serpapi"))]).
Proof.
  apply (C7_academic_failure_contained arxiv_down
           (EnhancedSearchTool_init (<["serpapi" := VStr "serp-key"]> ∅))
           "quantum foo" boot "HTTP 503").
  - vm_compute. reflexivity.
  - vm_compute. reflexivity.
  - reflexivity.
Defined.

(** C8, as amended. A query that is not in the cache and is within the
    budget attempts the secondary search exactly when the academic search
    brought fewer than three records and a secondary key is configured;
    otherwise the web list of the bundle is empty and the academic search
    is the only outbound call. *)
Theorem C8_secondary_search_gate E self query g :
  cache self !! cache_key query = None ->
  (query_count self < max_queries_per_session self)%Z ->
  exists arxiv web self' g' secondary,
    func E query (self, g) =
      (Ok (VDict [("arxiv", arxiv); ("web", web)]), (self', g')) /\
    arxiv = academic E (now (admitted E self query g)) query /\
    events g' =
      events (admitted E self query g) ++
      EvArxiv (now (admitted E self query g)) query :: secondary /\
    ((exists t,
        secondary =
        [EvSerpapi t query (default VNone (api_keys self !! "serpapi"))])
     <-> (len arxiv < 3)%nat /\ serpapi_configured self = true) /\
    (~ ((len arxiv < 3)%nat /\ serpapi_configured self = true) ->
     secondary = [] /\ web = VList []).
Proof.
  intros Hmiss Hlt.
  destruct (func_within_budget_run E self query g Hmiss Hlt)
    as (self' & g' & Hcall & Hev & _).
  set (arxiv := academic E (now (admitted E self query g)) query) in *.
  destruct ((len arxiv <? 3)%nat && serpapi_configured self) eqn:Hgate.
  - apply andb_true_iff in Hgate as [Hfew Hkey].
    apply Nat.ltb_lt in Hfew.
    eexists arxiv, _, self', g', _.
    split; [exact Hcall|]. split; [reflexivity|]. split; [exact Hev|].
    split; [split; eauto|].
    intros Hnot. exfalso. apply Hnot. split; assumption.
  - assert (~ ((len arxiv < 3)%nat /\ serpapi_configured self = true))
      as Hnot.
    { intros [Hfew Hkey]. apply Nat.ltb_lt in Hfew.
      rewrite Hfew, Hkey in Hgate. discriminate. }
    eexists arxiv, _, self', g', _.
    split; [exact Hcall|]. split; [reflexivity|]. split; [exact Hev|].
    split; [split|].
    + intros [t Ht]. discriminate.
    + intros H. exfalso. exact (Hnot H).
    + intros _. split; reflexivity.
Qed.

Lemma C8_secondary_search_gate_witness :
  exists arxiv web self' g' secondary,
    func quiet "graph learning" (EnhancedSearchTool_init ∅, boot) =
      (Ok (VDict [("arxiv", arxiv); ("web", web)]), (self', g')) /\
    arxiv =
      academic quiet
        (now (admitted quiet (EnhancedSearchTool_init ∅) "graph learning" boot))
        "graph learning" /\
    events g' =
      events (admitted quiet (EnhancedSearchTool_init ∅) "graph learning" boot)
      ++ EvArxiv
           (now (admitted quiet (EnhancedSearchTool_init ∅)
                   "graph learning" boot))
           "graph learning" :: secondary /\
    ((exists t,
        secondary =
        [EvSerpapi t "graph learning"
           (default VNone
              (api_keys (EnhancedSearchTool_init ∅) !! "serpapi"))])
     <-> (len arxiv < 3)%nat
         /\ serpapi_configured (EnhancedSearchTool_init ∅) = true) /\
    (~ ((len arxiv < 3)%nat
        /\ serpapi_configured (EnhancedSearchTool_init ∅) = true) ->
     secondary = [] /\ web = VList []).
Proof.
  apply (C8_secondary_search_gate quiet (EnhancedSearchTool_init ∅)
           "graph learning" boot).
  - vm_compute. reflexivity.
  - vm_compute. reflexivity.
Defined.

(** C8, as stated, fails: with the budget used up, no academic record has
    come back (fewer than three) and a secondary key is configured, and yet
    no secondary search is attempted. *)
Lemma C8_counterexample :
  cache (fst spent) !! cache_key "q21" = None /\
  serpapi_configured (fst spent) = true /\
  (exists kvs inner found,
     fst (func quiet "q21" spent) = Ok (VDict kvs) /\
     dict_get kvs "results" = Some (VDict inner) /\
     dict_get inner "arxiv" = Some found /\
     (len found < 3)%nat) /\
  outbound_calls (events (snd (snd (func quiet "q21" spent)))) =
  outbound_calls (events (snd spent)).
Proof.
  split; [vm_compute; reflexivity|].
  split; [vm_compute; reflexivity|].
  split.
  - exists [("error", VStr "Query limit reached");
            ("results", VDict [("arxiv", VList []); ("web", VList [])])],
      [("arxiv", VList []); ("web", VList [])], (VList []).
    split; [vm_compute; reflexivity|].
    repeat split; simpl; lia.
  - vm_compute. reflexivity.
Qed.

(** ** Spacing *)

(** A query that is not in the cache passes the rate limiting step before
    anything else: when less than two seconds have passed since the time
    the tool last recorded, the caller sleeps for the rest of them, and
    every outbound call of the query starts at least two seconds after
    that time. *)
Lemma func_miss_spacing E self query g r self' g' :
  cache self !! cache_key query = None ->
  func E query (self, g) = (r, (self', g')) ->
  exists calls,
    events g' =
      events g ++
      (if QMicromega.Qlt_bool (now g - last_query_time self) 2
       then [EvSleep (now g) (2 - (now g - last_query_time self))]
       else []) ++ calls /\
    Forall (not_before (last_query_time self + 2)) calls /\
    (last_query_time self + 2 <= now g')%Q.
Proof.
  intros Hmiss Hcall.
  assert (events (admitted E self query g) =
          events g ++
          (if QMicromega.Qlt_bool (now g - last_query_time self) 2
           then [EvSleep (now g) (2 - (now g - last_query_time self))]
           else [])) as Hadm.
  { unfold admitted. rewrite rate_limit_events. unfold log_search.
    rewrite log_append_events, log_append_now. reflexivity. }
  pose proof (rate_limit_now E self (log_search E self query g)) as Hnow.
  fold (admitted E self query g) in Hnow.
  destruct (Z_lt_le_dec (query_count self) (max_queries_per_session self))
    as [Hlt|Hge].
  - destruct (func_within_budget_run E self query g Hmiss Hlt)
      as (self1 & g1 & Heq & Hev & _ & Hend & _).
    rewrite Heq in Hcall. inversion Hcall; subst. clear Hcall.
    rewrite Hadm, <- app_assoc in Hev.
    eexists. split; [exact Hev|].
    pose proof (secs_nonneg
      (arxiv_elapsed E (now (admitted E self query g)) query)) as Hpos.
    split; [|lra].
    constructor; [simpl; exact Hnow|].
    destruct (_ && _); constructor; [simpl; lra | constructor].
  - rewrite (func_over_budget _ _ _ _ Hmiss Hge) in Hcall.
    inversion Hcall; subst. clear Hcall.
    exists []. rewrite app_nil_r.
    split; [exact Hadm|]. split; [constructor | exact Hnow].
Qed.

(** C9, as amended. After a query that was answered within the budget and
    was not in the cache, the tool's recorded time is the time that query
    finished; the next query that is not in the cache, whenever it comes,
    sleeps for what is missing to two seconds since then, starts its
    outbound calls no earlier than two seconds after it, and returns no
    earlier either. *)
Theorem C9_spacing E self q1 g r1 self1 g1 q2 h r2 self2 g2 :
  cache self !! cache_key q1 = None ->
  (query_count self < max_queries_per_session self)%Z ->
  func E q1 (self, g) = (r1, (self1, g1)) ->
  cache self1 !! cache_key q2 = None ->
  func E q2 (self1, h) = (r2, (self2, g2)) ->
  last_query_time self1 = now g1 /\
  exists calls,
    events g2 =
      events h ++
      (if QMicromega.Qlt_bool (now h - now g1) 2
       then [EvSleep (now h) (2 - (now h - now g1))]
       else []) ++ calls /\
    Forall (not_before (now g1 + 2)) calls /\
    (now g1 + 2 <= now g2)%Q.
Proof.
  intros Hmiss1 Hlt Hcall1 Hmiss2 Hcall2.
  destruct (func_within_budget_run E self q1 g Hmiss1 Hlt)
    as (self1' & g1' & Heq & _ & Hlast & _).
  rewrite Heq in Hcall1. inversion Hcall1; subst. clear Hcall1.
  split; [exact Hlast|].
  destruct (func_miss_spacing E self1 q2 h r2 self2 g2 Hmiss2 Hcall2)
    as (calls & Hev & Hcalls & Hend).
  rewrite Hlast in Hev, Hcalls, Hend.
  exists calls. auto.
Qed.

Lemma C9_spacing_witness :
  let s1 := snd (func quiet "q1" (EnhancedSearchTool_init ∅, boot)) in
  let s2 := snd (func quiet "q2" s1) in
  last_query_time (fst s1) = now (snd s1) /\
  exists calls,
    events (snd s2) =
      events (snd s1) ++
      (if QMicromega.Qlt_bool (now (snd s1) - now (snd s1)) 2
       then [EvSleep (now (snd s1)) (2 - (now (snd s1) - now (snd s1)))]
       else []) ++ calls /\
    Forall (not_before (now (snd s1) + 2)) calls /\
    (now (snd s1) + 2 <= now (snd s2))%Q.
Proof.
  intros s1 s2.
  apply (C9_spacing quiet (EnhancedSearchTool_init ∅) "q1" boot
           (fst (func quiet "q1" (EnhancedSearchTool_init ∅, boot)))
           (fst s1) (snd s1) "q2" (snd s1)
           (fst (func quiet "q2" s1)) (fst s2) (snd s2)).
  - vm_compute. reflexivity.
  - vm_compute. reflexivity.
  - vm_compute. reflexivity.
  - vm_compute. reflexivity.
  - vm_compute. reflexivity.
Defined.

(** C9, as stated, fails: a query that meets the exhausted budget records
    no time, so the query after it, also not in the cache, is not held
    back: it returns at the very time the one before it returned, with no
    sleep in between. *)
Lemma C9_counterexample :
  let s1 := snd (func quiet "q21" spent) in
  let s2 := snd (func quiet "q22" s1) in
  cache (fst spent) !! cache_key "q21" = None /\
  cache (fst s1) !! cache_key "q22" = None /\
  now (snd s1) = 1700000040%Q /\
  now (snd s2) = 1700000040%Q /\
  events (snd s2) = events (snd s1).
Proof.
  vm_compute. repeat split; reflexivity.
Qed.

(** ** What a search leaves alone *)

Lemma func_control E query self g :
  control (snd (snd (func E query (self, g)))) = control g.
Proof.
  assert (control (admitted E self query g) = control g) as Hadm.
  { unfold admitted. rewrite rate_limit_control. apply log_append_control. }
  destruct (cache self !! cache_key query) as [cached|] eqn:Hc.
  - rewrite (func_hit _ _ _ _ _ Hc). apply log_append_control.
  - destruct (Z_lt_le_dec (query_count self) (max_queries_per_session self))
      as [Hlt|Hge].
    + destruct (func_within_budget_run E self query g Hc Hlt)
        as (self' & g' & -> & _ & _ & _ & _ & Hctl).
      simpl. rewrite Hctl. exact Hadm.
    + rewrite (func_over_budget _ _ _ _ Hc Hge). exact Hadm.
Qed.

(** The secondary searches of a tool carry the key the tool holds. *)
Lemma func_own_key E query self g r self' g' :
  func E query (self, g) = (r, (self', g')) ->
  exists new, events g' = events g ++ new /\ Forall (own_key self) new.
Proof.
  intros Hcall.
  assert (exists pre, events (admitted E self query g) = events g ++ pre
                      /\ Forall (own_key self) pre) as (pre & Hpre & Hown).
  { unfold admitted. rewrite rate_limit_events. unfold log_search.
    rewrite log_append_events. eexists. split; [reflexivity|].
    destruct (QMicromega.Qlt_bool _ 2); repeat constructor. }
  destruct (cache self !! cache_key query) as [cached|] eqn:Hc.
  - rewrite (func_hit _ _ _ _ _ Hc) in Hcall. inversion Hcall; subst.
    exists []. rewrite app_nil_r. unfold log_search.
    rewrite log_append_events. split; [reflexivity | constructor].
  - destruct (Z_lt_le_dec (query_count self) (max_queries_per_session self))
      as [Hlt|Hge].
    + destruct (func_within_budget_run E self query g Hc Hlt)
        as (self1 & g1 & Heq & Hev & _).
      rewrite Heq in Hcall. inversion Hcall; subst. clear Hcall.
      rewrite Hpre, <- app_assoc in Hev.
      eexists. split; [exact Hev|].
      apply Forall_app. split; [exact Hown|].
      constructor; [exact I|].
      destruct (_ && serpapi_configured self) eqn:Hgate; [|constructor].
      apply andb_true_iff in Hgate as [_ Hkey].
      unfold serpapi_configured in Hkey.
      constructor; [|constructor]. simpl.
      destruct (api_keys self !! "serpapi"); [reflexivity | discriminate].
    + rewrite (func_over_budget _ _ _ _ Hc Hge) in Hcall.
      inversion Hcall; subst. eauto.
Qed.

Lemma evolves_api_keys E self self' :
  evolves E self self' -> api_keys self' = api_keys self.
Proof.
  induction 1 as [self|self self1 self2 query g r g' _ IH Hcall];
    [reflexivity|].
  pose proof (func_api_keys E self1 query g) as Hkeys.
  rewrite Hcall in Hkeys. simpl in Hkeys. congruence.
Qed.

Lemma run_crew_search E query k s :
  run_crew E (Search query k) s =
  let '(r, s') := func E query s in run_crew E (k r) s'.
Proof. reflexivity. Qed.

Lemma run_crew_wait E d k self g :
  run_crew E (Wait d k) (self, g) = run_crew E k (self, advance (secs d) g).
Proof. reflexivity. Qed.

(** Whatever the runtime does with the search tool, the registry, the
    environment and the record of status writes stay as they were. *)
Lemma run_crew_control E rt self g :
  control (snd (snd (run_crew E rt (self, g)))) = control g.
Proof.
  revert self g.
  induction rt as [r|query k IH|d k IH]; intros self g; [reflexivity| |].
  - rewrite run_crew_search.
    destruct (func E query (self, g)) as [r [self' g']] eqn:Hcall.
    rewrite IH.
    pose proof (func_control E query self g) as Hc.
    rewrite Hcall in Hc. exact Hc.
  - rewrite run_crew_wait, IH. reflexivity.
Qed.

(** ** The orchestrator *)

Lemma control_registry g g' :
  control g' = control g -> registry g' = registry g.
Proof.
  unfold control, registry. intros H. injection H as H1 H2 H3 H4.
  congruence.
Qed.

Lemma log_append_registry sid entry g :
  registry (log_append sid entry g) = registry g.
Proof.
  apply control_registry, log_append_control.
Qed.

(** The constructor, case by case: it raises on a key that is not a string
    or holds a null character, and otherwise publishes the key in the
    environment, builds a new search tool and empties the session's log. *)
Lemma EnhancedAICoScientist_init_spec session_id openai_api_key serpapi_key g :
  EnhancedAICoScientist_init session_id openai_api_key serpapi_key g =
  match openai_api_key with
  | VStr s =>
      if contains (ascii_of_N 0) s
      then (Raise "embedded null byte", g)
      else
        (Ok {| scientist_session_id := session_id;
               search_tool :=
                 set_session_id session_id
                   (EnhancedSearchTool_init
                      (if truthy serpapi_key
                       then <["serpapi" := serpapi_key]> ∅ else ∅)) |},
         set_research_logs (<[session_id := []]>)
           (set_environ (<["OPENAI_API_KEY" := s]>) g))
  | _ => (Raise ("str expected, not " +:+ type_name openai_api_key), g)
  end.
Proof.
  unfold EnhancedAICoScientist_init, os_environ_set, mbind, M_bind, bind.
  destruct openai_api_key; try reflexivity.
  destruct (contains (ascii_of_N 0) s); reflexivity.
Qed.

Lemma EnhancedAICoScientist_init_registry session_id openai_api_key
    serpapi_key g :
  registry
    (snd (EnhancedAICoScientist_init session_id openai_api_key serpapi_key g))
  = registry g.
Proof.
  rewrite EnhancedAICoScientist_init_spec.
  destruct openai_api_key; try reflexivity.
  destruct (contains (ascii_of_N 0) s); reflexivity.
Qed.

(** Building the crew takes time and changes nothing else. *)
Lemma create_crew_state E g :
  snd (create_crew E g) = with_now (now (snd (create_crew E g))) g.
Proof.
  unfold create_crew, mbind, M_bind, bind.
  repeat (match goal with
          | |- context [construct E ?what ?h] =>
              destruct (construct E what h) as [[]|]; simpl; try reflexivity
          end).
Qed.

(** Running the research process writes to the log, the search tool and the
    clock only. *)
Lemma run_research_process_registry E research_goal self g :
  registry (snd (snd (run_research_process E research_goal (self, g))))
  = registry g.
Proof.
  unfold run_research_process, mbind, M_bind, bind, on_snd.
  pose proof (create_crew_state E g) as Hcrew.
  destruct (create_crew E g) as [[[]|e] g0]; simpl in Hcrew;
    set (t := now g0) in Hcrew; clearbody t; subst g0; [|reflexivity].
  unfold gets, modify, try_except, with_search_tool, mret, M_ret, ret, raise.
  simpl.
  set (g1 := log_activity E self "Supervisor" "Process Started"
               ("Goal: " +:+ str research_goal) (with_now t g)).
  assert (registry g1 = registry g) as Hg1
    by exact (log_append_registry _ _ (with_now t g)).
  pose proof (run_crew_control E (kickoff E (str research_goal) g1)
                (search_tool self) g1) as Hrun.
  destruct (run_crew E (kickoff E (str research_goal) g1)
              (search_tool self, g1)) as [[result|e] [tool g2]];
    simpl in Hrun |- *; apply control_registry in Hrun;
    unfold log_activity; rewrite log_append_registry; congruence.
Qed.

(** ** The worker *)

(** [research_worker], by how its [try] block ends. *)
Lemma research_worker_spec E session_id research_goal openai_api_key
    serpapi_key g :
  let g1 := set_status session_id "running" g in
  let a :=
    EnhancedAICoScientist_init session_id openai_api_key serpapi_key g1 in
  research_worker E session_id research_goal openai_api_key serpapi_key g =
  match a with
  | (Raise e, g2) => worker_except session_id e g2
  | (Ok scientist, g2) =>
      match run_research_process E research_goal (scientist, g2) with
      | (Raise e, (_, g3)) => worker_except session_id e g3
      | (Ok result, (_, g3)) =>
          (Ok tt,
           set_status session_id "completed"
             (set_research_results (<[session_id := result]>) g3))
      end
  end.
Proof.
  intros g1 a. subst a.
  unfold research_worker, worker_try, try_except, mbind, M_bind, bind,
    modify, with_local.
  fold g1.
  destruct (EnhancedAICoScientist_init session_id openai_api_key serpapi_key g1)
    as [[scientist|e] g2]; [|reflexivity].
  destruct (run_research_process E research_goal (scientist, g2))
    as [[result|e] [scientist' g3]]; reflexivity.
Qed.

(** How a run of the worker ends. *)
Lemma research_worker_outcome E session_id research_goal openai_api_key
    serpapi_key g :
  exists status g',
    research_worker E session_id research_goal openai_api_key serpapi_key g
      = (Ok tt, g') /\
    terminal status /\
    status_writes (events g') =
      status_writes (events g)
      ++ [(session_id, "running"); (session_id, status)] /\
    research_processes g' = <[session_id := status]> (research_processes g) /\
    exists stored,
      research_results g' = <[session_id := stored]> (research_results g) /\
      (status = "error" -> exists msg, stored = VDict [("error", VStr msg)]).
Proof.
  rewrite research_worker_spec.
  set (g1 := set_status session_id "running" g).
  assert (registry g1 =
          (<[session_id := "running"]> (research_processes g),
           research_results g,
           status_writes (events g) ++ [(session_id, "running")])) as Hg1.
  { unfold registry, g1. simpl. rewrite status_writes_app. reflexivity. }
  pose proof (EnhancedAICoScientist_init_registry session_id openai_api_key
                serpapi_key g1) as Hinit.
  destruct (EnhancedAICoScientist_init session_id openai_api_key serpapi_key g1)
    as [[scientist|e] g2]; simpl in Hinit.
  - pose proof (run_research_process_registry E research_goal scientist g2)
      as Hrun.
    destruct (run_research_process E research_goal (scientist, g2))
      as [[result|e] [scientist' g3]]; simpl in Hrun;
      rewrite Hinit, Hg1 in Hrun; unfold registry in Hrun;
      injection Hrun as Hp Hr Hw.
    + exists "completed". eexists. split; [reflexivity|].
      split; [left; reflexivity|]. simpl.
      rewrite status_writes_app, Hw, Hp, Hr, <- app_assoc, insert_insert_eq.
      repeat split. exists result. split; [reflexivity | discriminate].
    + exists "error". eexists. split; [reflexivity|].
      split; [right; reflexivity|]. simpl.
      rewrite status_writes_app, Hw, Hp, Hr, <- app_assoc, insert_insert_eq.
      repeat split. eexists. split; [reflexivity | eauto].
  - rewrite Hg1 in Hinit. unfold registry in Hinit.
    injection Hinit as Hp Hr Hw.
    exists "error". eexists. split; [reflexivity|].
    split; [right; reflexivity|]. simpl.
    rewrite status_writes_app, Hw, Hp, Hr, <- app_assoc, insert_insert_eq.
    repeat split. eexists. split; [reflexivity | eauto].
Qed.

(** C5, as amended. One run of the worker returns without raising and
    assigns the status of its session exactly twice: first ["running"],
    then one terminal status, decided by how the building of the
    orchestrator and the research process end. When they return a result,
    the status is ["completed"] and that result is stored; when either
    raises [e], wherever that happens, the status is ["error"] and the
    message ["Error in research process: "] followed by [e] is stored.
    It writes no status ["pending"] and touches the status of no other
    session. *)
Theorem C5_worker_status_writes E session_id research_goal openai_api_key
    serpapi_key g :
  let run :=
    orchestrate E session_id research_goal openai_api_key serpapi_key
      (set_status session_id "running" g) in
  let status :=
    match fst run with Ok _ => "completed" | Raise _ => "error" end in
  let stored :=
    match fst run with Ok result => result | Raise e => error_result e end in
  let g' :=
    set_status session_id status
      (set_research_results (<[session_id := stored]>) (snd run)) in
  research_worker E session_id research_goal openai_api_key serpapi_key g
    = (Ok tt, g') /\
  terminal status /\
  status_writes (events g') =
    status_writes (events g)
    ++ [(session_id, "running"); (session_id, status)] /\
  research_processes g' = <[session_id := status]> (research_processes g) /\
  research_results g' = <[session_id := stored]> (research_results g).
Proof.
  intros run status stored g'.
  assert (registry (snd run) =
          (<[session_id := "running"]> (research_processes g),
           research_results g,
           status_writes (events g) ++ [(session_id, "running")])) as Hreg.
  { subst run. unfold orchestrate, mbind, M_bind, bind, with_local.
    pose proof (EnhancedAICoScientist_init_registry session_id openai_api_key
                  serpapi_key (set_status session_id "running" g)) as Hinit.
    destruct (EnhancedAICoScientist_init session_id openai_api_key
                serpapi_key (set_status session_id "running" g))
      as [[scientist|e] g2]; simpl in Hinit.
    - pose proof (run_research_process_registry E research_goal scientist g2)
        as Hrun.
      destruct (run_research_process E research_goal (scientist, g2))
        as [r [scientist' g3]]. simpl in Hrun |- *.
      rewrite Hrun, Hinit. unfold registry. simpl.
      rewrite status_writes_app. reflexivity.
    - simpl. rewrite Hinit. unfold registry. simpl.
      rewrite status_writes_app. reflexivity. }
  unfold registry in Hreg. injection Hreg as Hp Hr Hw.
  split.
  { rewrite research_worker_spec. subst g' status stored run.
    unfold orchestrate, mbind, M_bind, bind, with_local.
    destruct (EnhancedAICoScientist_init session_id openai_api_key
                serpapi_key (set_status session_id "running" g))
      as [[scientist|e] g2]; [|reflexivity].
    destruct (run_research_process E research_goal (scientist, g2))
      as [[result|e] [scientist' g3]]; reflexivity. }
  split.
  { subst status. destruct (fst run); [left | right]; reflexivity. }
  subst g'. simpl.
  rewrite status_writes_app, Hw, Hp, Hr, <- app_assoc, insert_insert_eq.
  repeat split.
Qed.

(** C5, as stated, fails: two requests accepted in the same second share a
    session id, so the session that the first worker completed is set to
    ["running"] again by the second and gets a second terminal write. *)
Lemma C5_counterexample :
  let '(_, g1, t1) := start_research valid_request boot in
  let g2 := run_spawned quiet t1 g1 in
  let '(_, g3, t2) := start_research valid_request (advance (1 # 2) g2) in
  let g4 := run_spawned quiet t2 g3 in
  thread_session_id <$> t1 = Some "research_1700000000" /\
  thread_session_id <$> t2 = Some "research_1700000000" /\
  research_processes g2 !! "research_1700000000" = Some "completed" /\
  status_writes (events g4) =
    [("research_1700000000", "running");
     ("research_1700000000", "completed");
     ("research_1700000000", "running");
     ("research_1700000000", "completed")].
Proof.
  vm_compute. repeat split; reflexivity.
Qed.

(** ** Polling *)

(** A poll for a session whose status is not ["completed"] carries no
    result, whatever [research_results] holds for it. *)
Lemma research_status_unfinished session_id status g :
  research_processes g !! session_id = Some status ->
  status <> "completed" ->
  research_status session_id g =
  (status_body status (default [] (research_logs g !! session_id)) VNone,
   200%Z).
Proof.
  intros Hst Hne. unfold research_status. rewrite Hst.
  destruct (String.eqb status "completed") eqn:Heq; [|reflexivity].
  apply String.eqb_eq in Heq. contradiction.
Qed.

(** Every session that a worker leaves in the status ["error"] has its
    message in [research_results], and every poll for it comes back with
    no result. *)
Lemma failed_session_poll E session_id research_goal openai_api_key
    serpapi_key g g' :
  research_worker E session_id research_goal openai_api_key serpapi_key g
    = (Ok tt, g') ->
  research_processes g' !! session_id = Some "error" ->
  (exists msg,
     research_results g' !! session_id = Some (VDict [("error", VStr msg)])) /\
  research_status session_id g' =
    (status_body "error" (default [] (research_logs g' !! session_id)) VNone,
     200%Z).
Proof.
  intros Hrun Herr.
  destruct (research_worker_outcome E session_id research_goal openai_api_key
              serpapi_key g)
    as (status & g'' & Hrun' & _ & _ & Hproc & stored & Hres & Hmsg).
  rewrite Hrun in Hrun'. inversion Hrun'; subst g''. clear Hrun'.
  rewrite Hproc, lookup_insert_eq in Herr. inversion Herr; subst status.
  destruct (Hmsg eq_refl) as [msg ->].
  split.
  - exists msg. rewrite Hres. apply lookup_insert_eq.
  - apply research_status_unfinished; [|discriminate].
    rewrite Hproc. apply lookup_insert_eq.
Qed.

(** C1: the code at the failing input. The framework refuses to build the
    agents; the worker stores its message in [research_results] and sets
    the status to ["error"]; the poll that follows reports the status with
    an empty log and no result, so the message reaches no one. *)
Theorem C1_error_message_withheld :
  let '(_, g1, t) := start_research valid_request boot in
  let g2 := run_spawned agents_fail t g1 in
  thread_session_id <$> t = Some "research_1700000000" /\
  research_processes g2 !! "research_1700000000" = Some "error" /\
  research_results g2 !! "research_1700000000" =
    Some (VDict [("error",
                  VStr "Error in research process: validation error for Agent")])
  /\
  research_status "research_1700000000" g2 =
    (status_body "error" [] VNone, 200%Z).
Proof.
  vm_compute. repeat split; reflexivity.
Qed.

(** What an accepted start request does. *)
Lemma start_research_accepted data g resp g' t :
  start_research data g = (resp, g', Some t) ->
  thread_session_id t = new_session_id (now g) /\
  resp = (VDict [("status", VStr "success");
                 ("session_id", VStr (thread_session_id t));
                 ("message", VStr "Research process started")], 200%Z) /\
  g' = set_research_logs (<[thread_session_id t := []]>) g.
Proof.
  unfold start_research. intros Hstart.
  destruct (negb (truthy (get data "research_goal"))); [discriminate|].
  destruct (negb (truthy (get data "openai_api_key"))); [discriminate|].
  inversion Hstart; subst. clear Hstart. simpl.
  repeat split; reflexivity.
Qed.

(** C2, as amended. An accepted start request answers with the session id
    made from the current second, empties the log of that session and
    leaves the registry as it was: it writes no status. A poll for the
    session before the worker's first statement is answered with 404 unless
    an earlier request registered the same id; after that statement, which
    sets the status to ["running"], it is answered with that status, the
    empty log and no result. *)
Theorem C2_start_registers_log_only data g resp g' t :
  start_research data g = (resp, g', Some t) ->
  let sid := thread_session_id t in
  sid = new_session_id (now g) /\
  resp = (VDict [("status", VStr "success");
                 ("session_id", VStr sid);
                 ("message", VStr "Research process started")], 200%Z) /\
  research_logs g' !! sid = Some [] /\
  registry g' = registry g /\
  (research_processes g !! sid = None ->
   research_status sid g' = (not_found, 404%Z)) /\
  research_status sid (set_status sid "running" g') =
    (status_body "running" [] VNone, 200%Z).
Proof.
  intros Hstart sid.
  destruct (start_research_accepted data g resp g' t Hstart)
    as (Hid & Hresp & ->).
  fold sid in Hid, Hresp |- *.
  split; [exact Hid|]. split; [exact Hresp|].
  split; [apply lookup_insert_eq|]. split; [reflexivity|].
  split.
  - intros Hnone. unfold research_status. simpl. rewrite Hnone. reflexivity.
  - unfold research_status. simpl. rewrite !lookup_insert_eq. reflexivity.
Qed.

Lemma C2_start_registers_log_only_witness :
  let sid := "research_1700000000" in
  sid = new_session_id (now boot) /\
  fst (fst (start_research valid_request boot)) =
    (VDict [("status", VStr "success");
            ("session_id", VStr sid);
            ("message", VStr "Research process started")], 200%Z) /\
  research_logs (snd (fst (start_research valid_request boot))) !! sid
    = Some [] /\
  registry (snd (fst (start_research valid_request boot))) = registry boot /\
  (research_processes boot !! sid = None ->
   research_status sid (snd (fst (start_research valid_request boot)))
   = (not_found, 404%Z)) /\
  research_status sid
    (set_status sid "running" (snd (fst (start_research valid_request boot))))
  = (status_body "running" [] VNone, 200%Z).
Proof.
  apply (C2_start_registers_log_only valid_request boot
           (fst (fst (start_research valid_request boot)))
           (snd (fst (start_research valid_request boot)))
           {| thread_session_id := "research_1700000000";
              thread_research_goal := VStr "protein folding";
              thread_openai_api_key := VStr "sk-test";
              thread_serpapi_key := VNone |}).
  vm_compute. reflexivity.
Defined.

(** C2, as stated, fails: right after an accepted start request the poll
    for the new session is answered with 404, not with a status. *)
Lemma C2_counterexample :
  let '(resp, g1, t) := start_research valid_request boot in
  resp = (VDict [("status", VStr "success");
                 ("session_id", VStr "research_1700000000");
                 ("message", VStr "Research process started")], 200%Z) /\
  research_processes g1 !! "research_1700000000" = None /\
  research_status "research_1700000000" g1 = (not_found, 404%Z).
Proof.
  vm_compute. repeat split; reflexivity.
Qed.

(** ** Sessions side by side *)

(** C6, as amended. The orchestrator and the search tool of a job are built
    new from the job's own arguments, whatever the state of the process and
    of other sessions: the tool starts with an empty cache, a counter at
    zero and no recorded time, and holds the job's secondary key and no
    other. However the tool is used afterwards, every secondary search it
    makes carries that key. The primary key is a different matter: the
    constructor writes it into the environment of the whole process. *)
Theorem C6_search_tool_is_per_session E session_id openai_api_key serpapi_key
    g scientist g' tool query h r tool' h' :
  EnhancedAICoScientist_init session_id openai_api_key serpapi_key g
    = (Ok scientist, g') ->
  evolves E (search_tool scientist) tool ->
  func E query (tool, h) = (r, (tool', h')) ->
  scientist_session_id scientist = session_id /\
  search_tool scientist =
    set_session_id session_id
      (EnhancedSearchTool_init
         (if truthy serpapi_key then <["serpapi" := serpapi_key]> ∅ else ∅)) /\
  (exists new,
     events h' = events h ++ new /\ Forall (carries_key serpapi_key) new) /\
  exists s,
    openai_api_key = VStr s /\ environ g' !! "OPENAI_API_KEY" = Some s.
Proof.
  intros Hinit Hlater Hcall.
  rewrite EnhancedAICoScientist_init_spec in Hinit.
  destruct openai_api_key as [| | |s| |]; try discriminate.
  destruct (contains (ascii_of_N 0) s); [discriminate|].
  inversion Hinit; subst. clear Hinit. simpl in *.
  split; [reflexivity|]. split; [reflexivity|].
  split; [|exists s; split; [reflexivity | apply lookup_insert_eq]].
  destruct (func_own_key E query tool h r tool' h' Hcall) as (new & Hev & Hown).
  exists new. split; [exact Hev|].
  pose proof (evolves_api_keys _ _ _ Hlater) as Hkeys. simpl in Hkeys.
  eapply Forall_impl; [exact Hown|].
  intros [t q|t q k|t d|sid st]; simpl; try (intros; exact I).
  rewrite Hkeys.
  destruct (truthy serpapi_key).
  - rewrite lookup_insert_eq. congruence.
  - rewrite lookup_empty. discriminate.
Qed.

Lemma C6_search_tool_is_per_session_witness :
  let a :=
    EnhancedAICoScientist_init "research_1" (VStr "sk-A") (VStr "serp-A")
      boot in
  let tool :=
    set_session_id "research_1"
      (EnhancedSearchTool_init (<["serpapi" := VStr "serp-A"]> ∅)) in
  let c := func quiet "q1" (tool, snd a) in
  "research_1" = "research_1" /\
  tool =
    set_session_id "research_1"
      (EnhancedSearchTool_init
         (if truthy (VStr "serp-A")
          then <["serpapi" := VStr "serp-A"]> ∅ else ∅)) /\
  (exists new,
     events (snd (snd c)) = events (snd a) ++ new /\
     Forall (carries_key (VStr "serp-A")) new) /\
  exists s,
    VStr "sk-A" = VStr s /\ environ (snd a) !! "OPENAI_API_KEY" = Some s.
Proof.
  intros a tool c.
  apply (C6_search_tool_is_per_session quiet "research_1" (VStr "sk-A")
           (VStr "serp-A") boot
           {| scientist_session_id := "research_1"; search_tool := tool |}
           (snd a) tool "q1" (snd a) (fst c) (fst (snd c)) (snd (snd c))).
  - vm_compute. reflexivity.
  - apply evolves_refl.
  - vm_compute. reflexivity.
Defined.

(** C6, as stated, fails: the primary key of a session lives in the
    environment of the process. Worker A marks its session and builds its
    orchestrator, worker B does the same with another key, and the runtime
    that A then starts finds B's key. *)
Lemma C6_counterexample :
  let gA := set_status "research_1" "running" boot in
  let a := EnhancedAICoScientist_init "research_1" (VStr "sk-A") VNone gA in
  let gB := set_status "research_2" "running" (snd a) in
  let b := EnhancedAICoScientist_init "research_2" (VStr "sk-B") VNone gB in
  environ (snd a) !! "OPENAI_API_KEY" = Some "sk-A" /\
  environ (snd b) !! "OPENAI_API_KEY" = Some "sk-B" /\
  exists scientistA,
    fst a = Ok scientistA /\
    fst (run_research_process reads_key (VStr "goal") (scientistA, snd b))
    = Ok (VStr "sk-B").
Proof.
  split; [vm_compute; reflexivity|].
  split; [vm_compute; reflexivity|].
  eexists. split; [reflexivity|]. vm_compute. reflexivity.
Qed.

(** ** Session ids *)

(** C10. The session id is ["research_"] followed by the current time cut
    to whole seconds. Two requests accepted in the same second get the same
    id; the second one empties the log of that session again and starts a
    second worker for it, whose run ends with a terminal status written to
    the entry of that same id. *)
Theorem C10_same_second_same_session data1 data2 g1 g2 resp1 resp2 h1 h2
    t1 t2 :
  start_research data1 g1 = (resp1, h1, Some t1) ->
  start_research data2 g2 = (resp2, h2, Some t2) ->
  int (now g1) = int (now g2) ->
  thread_session_id t1 = "research_" +:+ pretty (int (now g1)) /\
  thread_session_id t2 = thread_session_id t1 /\
  research_logs h2 !! thread_session_id t1 = Some [] /\
  forall E g,
    exists status,
      terminal status /\
      research_processes (snd (run_thread E t2 g)) !! thread_session_id t1
      = Some status.
Proof.
  intros Hs1 Hs2 Hsec.
  destruct (start_research_accepted data1 g1 resp1 h1 t1 Hs1) as (Hid1 & _).
  destruct (start_research_accepted data2 g2 resp2 h2 t2 Hs2)
    as (Hid2 & _ & ->).
  unfold new_session_id in Hid1, Hid2.
  assert (thread_session_id t2 = thread_session_id t1) as Hsame
    by (rewrite Hid1, Hid2, Hsec; reflexivity).
  split; [exact Hid1|]. split; [exact Hsame|].
  split; [rewrite <- Hsame; apply lookup_insert_eq|].
  intros E g. unfold run_thread.
  destruct (research_worker_outcome E (thread_session_id t2)
              (thread_research_goal t2) (thread_openai_api_key t2)
              (thread_serpapi_key t2) g)
    as (status & g' & Hrun & Hterm & _ & Hproc & _).
  exists status. split; [exact Hterm|].
  rewrite Hrun. simpl. rewrite Hproc, Hsame. apply lookup_insert_eq.
Qed.

Lemma C10_same_second_same_session_witness :
  let t :=
    {| thread_session_id := "research_1700000000";
       thread_research_goal := VStr "protein folding";
       thread_openai_api_key := VStr "sk-test";
       thread_serpapi_key := VNone |} in
  thread_session_id t = "research_" +:+ pretty (int (now boot)) /\
  thread_session_id t = thread_session_id t /\
  research_logs
    (snd (fst (start_research valid_request (advance (1 # 2) boot))))
    !! thread_session_id t = Some [] /\
  forall E g,
    exists status,
      terminal status /\
      research_processes (snd (run_thread E t g)) !! thread_session_id t
      = Some status.
Proof.
  intros t.
  apply (C10_same_second_same_session valid_request valid_request
           boot (advance (1 # 2) boot)
           (fst (fst (start_research valid_request boot)))
           (fst (fst (start_research valid_request (advance (1 # 2) boot))))
           (snd (fst (start_research valid_request boot)))
           (snd (fst (start_research valid_request (advance (1 # 2) boot))))
           t t).
  - vm_compute. reflexivity.
  - vm_compute. reflexivity.
  - vm_compute. reflexivity.
Defined.

(** ** Normalisation of queries, on examples *)

Example cache_key_trims_and_lowers :
  cache_key "  Quantum FOO " = "quantum foo".
Proof. reflexivity. Qed.

Example cache_key_keeps_inner_spaces :
  cache_key "A  b" = "a  b".
Proof. reflexivity. Qed.

Example session_id_cuts_to_seconds :
  new_session_id (3400000001 # 2) = "research_1700000000".
Proof. vm_compute. reflexivity. Qed.

(** * Further properties *)

(** ** The activity log *)

Lemma rate_limit_research_logs E self g :
  research_logs (rate_limit E self g) = research_logs g.
Proof.
  unfold rate_limit.
  destruct (QMicromega.Qlt_bool (now g - last_query_time self) 2);
    reflexivity.
Qed.

Lemma search_backends_research_logs E self query g :
  research_logs (snd (search_backends E self query g)) = research_logs g.
Proof.
  rewrite search_backends_spec. simpl.
  destruct (_ && _); reflexivity.
Qed.

(** The only thing [func] does to the logs is its own entry. *)
Lemma func_research_logs E query self g :
  research_logs (snd (snd (func E query (self, g)))) =
  research_logs (log_search E self query g).
Proof.
  destruct (cache self !! cache_key query) as [cached|] eqn:Hc.
  - rewrite (func_hit _ _ _ _ _ Hc). reflexivity.
  - destruct (Z_lt_le_dec (query_count self) (max_queries_per_session self))
      as [Hlt|Hge].
    + destruct (func_within_budget E self query g Hc Hlt) as (r & _ & ->).
      simpl. rewrite search_backends_research_logs.
      apply rate_limit_research_logs.
    + rewrite (func_over_budget _ _ _ _ Hc Hge). simpl.
      apply rate_limit_research_logs.
Qed.

Lemma func_session_id E query self g :
  session_id (fst (snd (func E query (self, g)))) = session_id self.
Proof.
  destruct (cache self !! cache_key query) as [cached|] eqn:Hc.
  - rewrite (func_hit _ _ _ _ _ Hc). reflexivity.
  - destruct (Z_lt_le_dec (query_count self) (max_queries_per_session self))
      as [Hlt|Hge].
    + destruct (func_within_budget E self query g Hc Hlt) as (r & _ & ->).
      reflexivity.
    + rewrite (func_over_budget _ _ _ _ Hc Hge). reflexivity.
Qed.

(** What one call of [func] does to the logs. *)
Lemma func_logs_step E query self g sid :
  session_id self = Some sid ->
  let g' := snd (snd (func E query (self, g))) in
  research_logs g' !! sid =
    (fun l => l ++ [search_entry E (now g) query]) <$> research_logs g !! sid
  /\ forall sid', sid' <> sid ->
       research_logs g' !! sid' = research_logs g !! sid'.
Proof.
  intros Hsid g'. subst g'. rewrite func_research_logs.
  unfold log_search, log_append. rewrite Hsid. simpl.
  destruct (research_logs g !! sid) as [l|] eqn:Hl; simpl.
  - split; [apply lookup_insert_eq|].
    intros sid' Hne. apply lookup_insert_ne. congruence.
  - split; [exact Hl | reflexivity].
Qed.

(** X1. Every call of [func] on a tool bound to a session is recorded: it
    appends exactly one entry, with the text of the query as it was asked,
    to the log of that session, also when the answer comes from the cache
    or the budget is used up. When the session has no log, nothing is
    written and nothing is raised. The logs of other sessions are not
    touched. *)
Theorem func_logs_every_call E query self g sid :
  session_id self = Some sid ->
  let g' := snd (snd (func E query (self, g))) in
  research_logs g' !! sid =
    (fun l => l ++ [search_entry E (now g) query]) <$> research_logs g !! sid
  /\ forall sid', sid' <> sid ->
       research_logs g' !! sid' = research_logs g !! sid'.
Proof.
  apply func_logs_step.
Qed.

Lemma func_logs_every_call_witness :
  let self :=
    set_session_id "research_1700000000" (EnhancedSearchTool_init ∅) in
  let g' := snd (snd (func quiet "q1" (self, busy))) in
  research_logs g' !! "research_1700000000" =
    (fun l => l ++ [search_entry quiet (now busy) "q1"])
      <$> research_logs busy !! "research_1700000000"
  /\ forall sid', sid' <> "research_1700000000" ->
       research_logs g' !! sid' = research_logs busy !! sid'.
Proof.
  intros self g'.
  apply (func_logs_every_call quiet "q1" self busy "research_1700000000").
  reflexivity.
Defined.

(** The runtime keeps the tool bound to its session. *)
Lemma run_crew_research_logs_other E rt self g sid sid' :
  session_id self = Some sid ->
  sid' <> sid ->
  research_logs (snd (snd (run_crew E rt (self, g)))) !! sid' =
  research_logs g !! sid'.
Proof.
  revert self g.
  induction rt as [r|query k IH|d k IH]; intros self g Hsid Hne;
    [reflexivity| |
     rewrite run_crew_wait; exact (IH self (advance (secs d) g) Hsid Hne)].
  rewrite run_crew_search.
  pose proof (func_session_id E query self g) as Hkeep.
  destruct (func_logs_step E query self g sid Hsid) as [_ Hother].
  destruct (func E query (self, g)) as [r [self' g']].
  simpl in Hkeep, Hother.
  rewrite IH; [apply Hother; exact Hne | congruence | exact Hne].
Qed.

(** X2. While the runtime works, the log of every session only grows:
    whatever was in a log stays there, in its place, and new entries come
    after it. *)
Theorem run_crew_logs_grow E rt self g sid l :
  research_logs g !! sid = Some l ->
  exists added,
    research_logs (snd (snd (run_crew E rt (self, g)))) !! sid
    = Some (l ++ added).
Proof.
  revert self g l.
  induction rt as [r|query k IH|d k IH]; intros self g l Hl.
  - exists []. simpl. rewrite app_nil_r. exact Hl.
  - rewrite run_crew_search.
    assert (exists added,
               research_logs (snd (snd (func E query (self, g)))) !! sid
               = Some (l ++ added)) as [added Hstep].
    { rewrite func_research_logs. unfold log_search, log_append.
      destruct (research_logs g !! default "default" (session_id self))
        as [l0|] eqn:Hl0.
      - simpl. destruct (decide (default "default" (session_id self) = sid))
          as [Heq|Hne].
        + rewrite Heq in Hl0 |- *. rewrite lookup_insert_eq.
          assert (l0 = l) as -> by congruence. eauto.
        + rewrite lookup_insert_ne by exact Hne. exists [].
          rewrite app_nil_r. exact Hl.
      - exists []. rewrite app_nil_r. exact Hl. }
    destruct (func E query (self, g)) as [r [self' g']]. simpl in Hstep.
    destruct (IH r self' g' (l ++ added) Hstep) as [added' Hrest].
    exists (added ++ added'). rewrite app_assoc. exact Hrest.
  - rewrite run_crew_wait. exact (IH self (advance (secs d) g) l Hl).
Qed.

Lemma run_crew_logs_grow_witness :
  exists added,
    research_logs
      (snd (snd (run_crew searches_twice
                   (kickoff searches_twice "goal" busy)
                   (set_session_id "research_1700000000"
                      (EnhancedSearchTool_init ∅), busy))))
      !! "research_1700000000"
    = Some (default [] (research_logs busy !! "research_1700000000")
            ++ added).
Proof.
  apply (run_crew_logs_grow searches_twice
           (kickoff searches_twice "goal" busy)
           (set_session_id "research_1700000000" (EnhancedSearchTool_init ∅))
           busy "research_1700000000").
  vm_compute. reflexivity.
Defined.

(** ** Sessions do not touch one another *)

Lemma EnhancedAICoScientist_init_bound sid openai_api_key serpapi_key
    g scientist g' :
  EnhancedAICoScientist_init sid openai_api_key serpapi_key g
    = (Ok scientist, g') ->
  scientist_session_id scientist = sid /\
  session_id (search_tool scientist) = Some sid.
Proof.
  rewrite EnhancedAICoScientist_init_spec.
  destruct openai_api_key as [| | |s| |]; try discriminate.
  destruct (contains (ascii_of_N 0) s); [discriminate|].
  intros H. inversion H; subst. split; reflexivity.
Qed.

Lemma EnhancedAICoScientist_init_logs_other session_id openai_api_key
    serpapi_key g sid' :
  sid' <> session_id ->
  research_logs
    (snd (EnhancedAICoScientist_init session_id openai_api_key serpapi_key g))
    !! sid'
  = research_logs g !! sid'.
Proof.
  intros Hne. rewrite EnhancedAICoScientist_init_spec.
  destruct openai_api_key as [| | |s| |]; try reflexivity.
  destruct (contains (ascii_of_N 0) s); [reflexivity|].
  simpl. apply lookup_insert_ne. congruence.
Qed.

Lemma run_research_process_logs_other E research_goal self g sid sid' :
  scientist_session_id self = sid ->
  session_id (search_tool self) = Some sid ->
  sid' <> sid ->
  research_logs (snd (snd (run_research_process E research_goal (self, g))))
    !! sid'
  = research_logs g !! sid'.
Proof.
  intros Hown Hbound Hne.
  unfold run_research_process, mbind, M_bind, bind, on_snd.
  pose proof (create_crew_state E g) as Hcrew.
  destruct (create_crew E g) as [[[]|e] g0]; simpl in Hcrew;
    set (t := now g0) in Hcrew; clearbody t; subst g0; [|reflexivity].
  unfold gets, modify, try_except, with_search_tool, mret, M_ret, ret, raise.
  simpl.
  set (g1 := log_activity E self "Supervisor" "Process Started"
               ("Goal: " +:+ str research_goal) (with_now t g)).
  assert (research_logs g1 !! sid' = research_logs g !! sid') as Hg1.
  { unfold g1, log_activity. rewrite Hown.
    apply (log_append_other _ _ _ (with_now t g)). congruence. }
  pose proof (run_crew_research_logs_other E
                (kickoff E (str research_goal) g1) (search_tool self) g1
                sid sid' Hbound Hne) as Hrun.
  destruct (run_crew E (kickoff E (str research_goal) g1)
              (search_tool self, g1)) as [[result|e] [tool g2]];
    simpl in Hrun |- *; unfold log_activity; rewrite Hown;
    rewrite log_append_other by congruence; congruence.
Qed.

(** X3. A run of the worker of one session leaves every other session as
    it was: its status, its stored result and its log. *)
Theorem research_worker_other_sessions E session_id research_goal
    openai_api_key serpapi_key g sid' :
  sid' <> session_id ->
  let g' :=
    snd (research_worker E session_id research_goal openai_api_key
           serpapi_key g) in
  research_processes g' !! sid' = research_processes g !! sid' /\
  research_results g' !! sid' = research_results g !! sid' /\
  research_logs g' !! sid' = research_logs g !! sid'.
Proof.
  intros Hne g'.
  destruct (research_worker_outcome E session_id research_goal openai_api_key
              serpapi_key g)
    as (status & g'' & Hrun & _ & _ & Hproc & stored & Hres & _).
  subst g'. rewrite Hrun. simpl. rewrite Hproc, Hres.
  split; [apply lookup_insert_ne; congruence|].
  split; [apply lookup_insert_ne; congruence|].
  clear Hproc Hres. rewrite research_worker_spec in Hrun.
  pose proof (EnhancedAICoScientist_init_logs_other session_id openai_api_key
                serpapi_key (set_status session_id "running" g) sid' Hne)
    as Hinit.
  destruct (EnhancedAICoScientist_init session_id openai_api_key serpapi_key
              (set_status session_id "running" g))
    as [[scientist|e] g2] eqn:Hcons; simpl in Hinit.
  - destruct (EnhancedAICoScientist_init_bound _ _ _ _ _ _ Hcons)
      as [Hown Hbound].
    pose proof (run_research_process_logs_other E research_goal scientist g2
                  session_id sid' Hown Hbound Hne) as Hlogs.
    destruct (run_research_process E research_goal (scientist, g2))
      as [[result|e] [scientist' g3]]; simpl in Hlogs;
      inversion Hrun; subst g''; simpl; congruence.
  - inversion Hrun; subst g''. simpl. exact Hinit.
Qed.

Lemma research_worker_other_sessions_witness :
  let g' :=
    snd (research_worker quiet "research_1700000007" (VStr "goal")
           (VStr "sk-test") VNone busy) in
  research_processes g' !! "research_1700000000"
    = research_processes busy !! "research_1700000000" /\
  research_results g' !! "research_1700000000"
    = research_results busy !! "research_1700000000" /\
  research_logs g' !! "research_1700000000"
    = research_logs busy !! "research_1700000000".
Proof.
  apply (research_worker_other_sessions quiet "research_1700000007"
           (VStr "goal") (VStr "sk-test") VNone busy "research_1700000000").
  discriminate.
Defined.

(** ** The budget bounds the outbound calls *)

Lemma count_events_app kind l1 l2 :
  count_events kind (l1 ++ l2) = count_events kind l1 + count_events kind l2.
Proof.
  unfold count_events. rewrite List.filter_app. apply length_app.
Qed.

(** One call of [func]: the outbound calls of either kind that it adds are
    paid for out of what remains of the budget. *)
Lemma func_pays E query self g kind :
  kind = is_arxiv \/ kind = is_serpapi ->
  let s' := snd (func E query (self, g)) in
  (Z.of_nat (count_events kind (events (snd s'))) + remaining (fst s')
   <= Z.of_nat (count_events kind (events g)) + remaining self)%Z.
Proof.
  intros Hkind s'. subst s'.
  assert (count_events kind (events (admitted E self query g))
          = count_events kind (events g)) as Hadm.
  { unfold admitted. rewrite rate_limit_events, count_events_app.
    unfold log_search. rewrite log_append_events.
    destruct (QMicromega.Qlt_bool _ 2), Hkind as [-> | ->];
      unfold count_events; simpl; lia. }
  destruct (cache self !! cache_key query) as [cached|] eqn:Hc.
  - rewrite (func_hit _ _ _ _ _ Hc). simpl. unfold log_search.
    rewrite log_append_events. lia.
  - destruct (Z_lt_le_dec (query_count self) (max_queries_per_session self))
      as [Hlt|Hge].
    + destruct (func_within_budget_run E self query g Hc Hlt)
        as (self' & g' & Heq & Hev & _ & _ & Hcount & _).
      pose proof (func_max_queries E self query g) as Hmax.
      rewrite Heq in Hmax |- *. simpl in Hmax |- *.
      rewrite Hev, count_events_app, Hadm. unfold remaining.
      rewrite Hmax, Hcount.
      destruct (_ && _), Hkind as [-> | ->];
        unfold count_events at 2; simpl; lia.
    + rewrite (func_over_budget _ _ _ _ Hc Hge). simpl. rewrite Hadm.
      unfold remaining. simpl. lia.
Qed.

Lemma run_crew_pays E rt self g kind :
  kind = is_arxiv \/ kind = is_serpapi ->
  let s' := snd (run_crew E rt (self, g)) in
  (Z.of_nat (count_events kind (events (snd s'))) + remaining (fst s')
   <= Z.of_nat (count_events kind (events g)) + remaining self)%Z.
Proof.
  intros Hkind. revert self g.
  induction rt as [r|query k IH|d k IH]; intros self g;
    [simpl; lia| |
     rewrite run_crew_wait; exact (IH self (advance (secs d) g))].
  rewrite run_crew_search.
  pose proof (func_pays E query self g kind Hkind) as Hstep.
  destruct (func E query (self, g)) as [r [self' g']]. simpl in Hstep.
  specialize (IH r self' g'). simpl in IH |- *. lia.
Qed.

(** However many searches the runtime asks for, the tool sends out no
    more academic searches, and no more secondary searches, than remain of
    its budget. *)
Lemma run_crew_outbound_bound E rt self g :
  let g' := snd (snd (run_crew E rt (self, g))) in
  (Z.of_nat (count_events is_arxiv (events g'))
   <= Z.of_nat (count_events is_arxiv (events g)) + remaining self)%Z /\
  (Z.of_nat (count_events is_serpapi (events g'))
   <= Z.of_nat (count_events is_serpapi (events g)) + remaining self)%Z.
Proof.
  intros g'. subst g'.
  pose proof (run_crew_pays E rt self g is_arxiv (or_introl eq_refl)) as Ha.
  pose proof (run_crew_pays E rt self g is_serpapi (or_intror eq_refl)) as Hs.
  simpl in Ha, Hs.
  assert (0 <= remaining (fst (snd (run_crew E rt (self, g)))))%Z
    by (unfold remaining; lia).
  split; lia.
Qed.

Lemma run_research_process_events E research_goal self g kind :
  kind = is_arxiv \/ kind = is_serpapi ->
  (Z.of_nat
     (count_events kind
        (events (snd (snd (run_research_process E research_goal (self, g))))))
   <= Z.of_nat (count_events kind (events g)) + remaining (search_tool self))%Z.
Proof.
  intros Hkind.
  assert (0 <= remaining (search_tool self))%Z by (unfold remaining; lia).
  unfold run_research_process, mbind, M_bind, bind, on_snd.
  pose proof (create_crew_state E g) as Hcrew.
  destruct (create_crew E g) as [[[]|e] g0]; simpl in Hcrew;
    set (t := now g0) in Hcrew; clearbody t; subst g0; [|simpl; lia].
  unfold gets, modify, try_except, with_search_tool, mret, M_ret, ret, raise.
  simpl.
  set (g1 := log_activity E self "Supervisor" "Process Started"
               ("Goal: " +:+ str research_goal) (with_now t g)).
  assert (events g1 = events g) as Hg1
    by exact (log_append_events _ _ (with_now t g)).
  pose proof (run_crew_pays E (kickoff E (str research_goal) g1)
                (search_tool self) g1 kind Hkind) as Hrun.
  destruct (run_crew E (kickoff E (str research_goal) g1)
              (search_tool self, g1)) as [[result|e] [tool g2]];
    simpl in Hrun |- *; unfold log_activity; rewrite log_append_events;
    rewrite Hg1 in Hrun;
    assert (0 <= remaining tool)%Z by (unfold remaining; lia); lia.
Qed.

(** X4. A job sends out at most twenty academic searches and at most
    twenty secondary searches, whatever the runtime asks for and however
    the job ends. *)
Theorem research_worker_outbound_bound E session_id research_goal
    openai_api_key serpapi_key g :
  let g' :=
    snd (research_worker E session_id research_goal openai_api_key
           serpapi_key g) in
  count_events is_arxiv (events g')
    <= count_events is_arxiv (events g) + 20 /\
  count_events is_serpapi (events g')
    <= count_events is_serpapi (events g) + 20.
Proof.
  intros g'. subst g'. rewrite research_worker_spec.
  set (g1 := set_status session_id "running" g).
  assert (forall kind, kind = is_arxiv \/ kind = is_serpapi ->
            count_events kind (events g1) = count_events kind (events g))
    as Hg1.
  { intros kind Hkind. unfold g1, set_status. simpl.
    rewrite count_events_app.
    destruct Hkind as [-> | ->]; unfold count_events at 2; simpl; lia. }
  assert (forall kind,
            kind = is_arxiv \/ kind = is_serpapi ->
            count_events kind
              (events
                 (snd (match
                          EnhancedAICoScientist_init session_id openai_api_key
                            serpapi_key g1
                        with
                        | (Raise e, g2) => worker_except session_id e g2
                        | (Ok scientist, g2) =>
                            match
                              run_research_process E research_goal
                                (scientist, g2)
                            with
                            | (Raise e, (_, g3)) =>
                                worker_except session_id e g3
                            | (Ok result, (_, g3)) =>
                                (Ok tt,
                                 set_status session_id "completed"
                                   (set_research_results
                                      (<[session_id := result]>) g3))
                            end
                        end)))
            <= count_events kind (events g) + 20) as Hall.
  { intros kind Hkind. rewrite <- (Hg1 kind Hkind).
    rewrite EnhancedAICoScientist_init_spec.
    destruct openai_api_key as [| | |s| |];
      try (simpl; rewrite count_events_app;
           destruct Hkind as [-> | ->]; unfold count_events at 2; simpl; lia).
    destruct (contains (ascii_of_N 0) s).
    { simpl. rewrite count_events_app.
      destruct Hkind as [-> | ->]; unfold count_events at 2; simpl; lia. }
    match goal with
    | |- context [run_research_process E research_goal (?sc, ?g2)] =>
        pose proof (run_research_process_events E research_goal sc g2 kind
                      Hkind) as Hrun;
        destruct (run_research_process E research_goal (sc, g2))
          as [[result|e] [scientist' g3]]
    end;
      simpl in Hrun |- *; rewrite count_events_app;
      unfold remaining in Hrun; simpl in Hrun;
      destruct Hkind as [-> | ->]; unfold count_events at 2; simpl; lia. }
  split; apply Hall; [left | right]; reflexivity.
Qed.

(** ** From the request to the poll *)

(** X5. Once the worker of an accepted request has run, a poll for its
    session is answered with 200 and a terminal status, together with the
    session's log: with the stored result when the status is
    ["completed"], and with no result when it is ["error"]. *)
Theorem accepted_session_poll E data g resp g1 t :
  start_research data g = (resp, g1, Some t) ->
  let sid := thread_session_id t in
  let g2 := snd (run_thread E t g1) in
  exists status result,
    research_status sid g2 =
      (status_body status (default [] (research_logs g2 !! sid)) result,
       200%Z) /\
    (status = "completed" /\ research_results g2 !! sid = Some result
     \/ status = "error" /\ result = VNone).
Proof.
  intros _ sid g2. subst g2. unfold run_thread. fold sid.
  destruct (research_worker_outcome E sid (thread_research_goal t)
              (thread_openai_api_key t) (thread_serpapi_key t) g1)
    as (status & g' & Hrun & Hterm & _ & Hproc & stored & Hres & _).
  rewrite Hrun. simpl.
  assert (research_processes g' !! sid = Some status) as Hst
    by (rewrite Hproc; apply lookup_insert_eq).
  assert (research_results g' !! sid = Some stored) as Hstored
    by (rewrite Hres; apply lookup_insert_eq).
  destruct Hterm as [-> | ->].
  - exists "completed", stored. split; [|left; split; [reflexivity|exact Hstored]].
    unfold research_status. rewrite Hst, Hstored. reflexivity.
  - exists "error", VNone. split; [|right; split; reflexivity].
    apply research_status_unfinished; [exact Hst | discriminate].
Qed.

Lemma accepted_session_poll_witness :
  let sid := "research_1700000000" in
  let g2 :=
    snd (run_thread quiet
           {| thread_session_id := sid;
              thread_research_goal := VStr "protein folding";
              thread_openai_api_key := VStr "sk-test";
              thread_serpapi_key := VNone |}
           (snd (fst (start_research valid_request boot)))) in
  exists status result,
    research_status sid g2 =
      (status_body status (default [] (research_logs g2 !! sid)) result,
       200%Z) /\
    (status = "completed" /\ research_results g2 !! sid = Some result
     \/ status = "error" /\ result = VNone).
Proof.
  apply (accepted_session_poll quiet valid_request boot
           (fst (fst (start_research valid_request boot)))
           (snd (fst (start_research valid_request boot)))
           {| thread_session_id := "research_1700000000";
              thread_research_goal := VStr "protein folding";
              thread_openai_api_key := VStr "sk-test";
              thread_serpapi_key := VNone |}).
  vm_compute. reflexivity.
Defined.

(** The worker given a key that is not a string. *)
Lemma research_worker_type_error E session_id research_goal openai_api_key
    serpapi_key g :
  (forall s, openai_api_key <> VStr s) ->
  research_worker E session_id research_goal openai_api_key serpapi_key g =
  worker_except session_id
    ("str expected, not " +:+ type_name openai_api_key)
    (set_status session_id "running" g).
Proof.
  intros Hnot. rewrite research_worker_spec, EnhancedAICoScientist_init_spec.
  destruct openai_api_key as [| | |s| |]; try reflexivity.
  exfalso. exact (Hnot s eq_refl).
Qed.

(** X6. A request is judged by the truth value of its two fields only.
    When the API key is something other than a string (a number, a list,
    [true]), the request is accepted all the same, and its session always
    ends in ["error"], with the message of the type error stored, without
    the framework or the environment having been touched. *)
Theorem non_string_key_fails E data g :
  truthy (get data "research_goal") = true ->
  truthy (get data "openai_api_key") = true ->
  (forall s, get data "openai_api_key" <> VStr s) ->
  exists resp g1 t g2,
    start_research data g = (resp, g1, Some t) /\
    snd resp = 200%Z /\
    run_thread E t g1 = (Ok tt, g2) /\
    research_processes g2 !! thread_session_id t = Some "error" /\
    research_results g2 !! thread_session_id t =
      Some (VDict [("error",
                    VStr ("Error in research process: str expected, not "
                          +:+ type_name (get data "openai_api_key")))]) /\
    environ g2 = environ g /\
    outbound_calls (events g2) = outbound_calls (events g).
Proof.
  intros Hgoal Hkey Hnot.
  unfold start_research. rewrite Hgoal, Hkey. simpl.
  eexists _, _, _, _. split; [reflexivity|]. split; [reflexivity|].
  unfold run_thread. simpl.
  rewrite (research_worker_type_error E _ _ _ _ _ Hnot).
  split; [reflexivity|]. simpl.
  rewrite !lookup_insert_eq, !outbound_calls_app. simpl.
  rewrite !app_nil_r. repeat split.
Qed.

Lemma non_string_key_fails_witness :
  exists resp g1 t g2,
    start_research
      [("research_goal", VStr "protein folding"); ("openai_api_key", VInt 123)]
      boot = (resp, g1, Some t) /\
    snd resp = 200%Z /\
    run_thread quiet t g1 = (Ok tt, g2) /\
    research_processes g2 !! thread_session_id t = Some "error" /\
    research_results g2 !! thread_session_id t =
      Some (VDict [("error",
                    VStr ("Error in research process: str expected, not "
                          +:+ type_name
                                (get [("research_goal", VStr "protein folding");
                                      ("openai_api_key", VInt 123)]
                                   "openai_api_key")))]) /\
    environ g2 = environ boot /\
    outbound_calls (events g2) = outbound_calls (events boot).
Proof.
  apply (non_string_key_fails quiet
           [("research_goal", VStr "protein folding");
            ("openai_api_key", VInt 123)] boot).
  - reflexivity.
  - reflexivity.
  - intros s. discriminate.
Defined.

(** ** Without a secondary key *)

Lemma own_key_none_count self new :
  api_keys self !! "serpapi" = None ->
  Forall (own_key self) new ->
  count_events is_serpapi new = 0.
Proof.
  intros Hnone Hown.
  induction Hown as [|ev new Hev _ IH]; [reflexivity|].
  destruct ev; simpl in *; try exact IH. congruence.
Qed.

Lemma func_no_key E query self g :
  api_keys self !! "serpapi" = None ->
  count_events is_serpapi (events (snd (snd (func E query (self, g)))))
  = count_events is_serpapi (events g).
Proof.
  intros Hnone.
  destruct (func E query (self, g)) as [r [self' g']] eqn:Hcall.
  destruct (func_own_key E query self g r self' g' Hcall)
    as (new & Hev & Hown).
  simpl. rewrite Hev, count_events_app, (own_key_none_count self new); auto.
Qed.

Lemma run_crew_no_key E rt self g :
  api_keys self !! "serpapi" = None ->
  count_events is_serpapi (events (snd (snd (run_crew E rt (self, g)))))
  = count_events is_serpapi (events g).
Proof.
  revert self g.
  induction rt as [r|query k IH|d k IH]; intros self g Hnone;
    [reflexivity| |
     rewrite run_crew_wait; exact (IH self (advance (secs d) g) Hnone)].
  rewrite run_crew_search.
  pose proof (func_no_key E query self g Hnone) as Hstep.
  pose proof (func_api_keys E self query g) as Hkeys.
  destruct (func E query (self, g)) as [r [self' g']].
  simpl in Hstep, Hkeys. rewrite IH; [exact Hstep | congruence].
Qed.

Lemma run_research_process_no_key E research_goal self g :
  api_keys (search_tool self) !! "serpapi" = None ->
  count_events is_serpapi
    (events (snd (snd (run_research_process E research_goal (self, g)))))
  = count_events is_serpapi (events g).
Proof.
  intros Hnone.
  unfold run_research_process, mbind, M_bind, bind, on_snd.
  pose proof (create_crew_state E g) as Hcrew.
  destruct (create_crew E g) as [[[]|e] g0]; simpl in Hcrew;
    set (t := now g0) in Hcrew; clearbody t; subst g0; [|reflexivity].
  unfold gets, modify, try_except, with_search_tool, mret, M_ret, ret, raise.
  simpl.
  set (g1 := log_activity E self "Supervisor" "Process Started"
               ("Goal: " +:+ str research_goal) (with_now t g)).
  assert (events g1 = events g) as Hg1
    by exact (log_append_events _ _ (with_now t g)).
  pose proof (run_crew_no_key E (kickoff E (str research_goal) g1)
                (search_tool self) g1 Hnone) as Hrun.
  destruct (run_crew E (kickoff E (str research_goal) g1)
              (search_tool self, g1)) as [[result|e] [tool g2]];
    simpl in Hrun |- *; unfold log_activity; rewrite log_append_events;
    congruence.
Qed.

(** X7. A job whose request carries no secondary key, or an empty one,
    never makes a secondary search, however few records the academic
    searches bring. *)
Theorem research_worker_no_secondary_key E session_id research_goal
    openai_api_key serpapi_key g :
  truthy serpapi_key = false ->
  count_events is_serpapi
    (events
       (snd (research_worker E session_id research_goal openai_api_key
               serpapi_key g)))
  = count_events is_serpapi (events g).
Proof.
  intros Hfalsy. rewrite research_worker_spec.
  rewrite EnhancedAICoScientist_init_spec, Hfalsy.
  assert (forall (st : string) (h : Globals),
            count_events is_serpapi (events (set_status session_id st h))
            = count_events is_serpapi (events h)) as Hst.
  { intros st h. unfold set_status. simpl. rewrite count_events_app.
    unfold count_events at 2. simpl. lia. }
  destruct openai_api_key as [| | |s| |];
    try (simpl; rewrite count_events_app; unfold count_events at 2; simpl;
         rewrite Nat.add_0_r; apply Hst).
  destruct (contains (ascii_of_N 0) s).
  { simpl; rewrite count_events_app; unfold count_events at 2; simpl.
    rewrite Nat.add_0_r. apply Hst. }
  match goal with
  | |- context [run_research_process E research_goal (?sc, ?g2)] =>
      pose proof (run_research_process_no_key E research_goal sc g2
                    (lookup_empty _)) as Hrun;
      destruct (run_research_process E research_goal (sc, g2))
        as [[result|e] [scientist' g3]]
  end;
    simpl in Hrun |- *; rewrite count_events_app;
    unfold count_events at 2; simpl; rewrite Nat.add_0_r, Hrun;
    apply (Hst "running").
Qed.

Lemma research_worker_no_secondary_key_witness :
  count_events is_serpapi
    (events
       (snd (research_worker searches_twice "research_1700000000"
               (VStr "goal") (VStr "sk-test") (VStr "") boot)))
  = count_events is_serpapi (events boot).
Proof.
  apply (research_worker_no_secondary_key searches_twice
           "research_1700000000" (VStr "goal") (VStr "sk-test") (VStr "")
           boot).
  reflexivity.
Defined.

(** ** What a failure of the runtime leaves behind *)

Lemma create_crew_ok E g :
  (forall what h, construct E what h = Ok tt) ->
  fst (create_crew E g) = Ok tt.
Proof.
  intros Hok. unfold create_crew, mbind, M_bind, bind.
  rewrite !Hok. reflexivity.
Qed.

(** Building the crew does not turn the clock back. *)
Lemma create_crew_mono E g : (now g <= now (snd (create_crew E g)))%Q.
Proof.
  unfold create_crew, mbind, M_bind, bind.
  repeat (match goal with
          | |- context [construct E ?what ?h] =>
              destruct (construct E what h) as [[]|]; simpl
          end);
    repeat (match goal with
            | |- context [secs ?d] =>
                let H := fresh "H" in
                let x := fresh "x" in
                pose proof (secs_nonneg d) as H;
                set (x := secs d) in *; clearbody x
            end);
    lra.
Qed.

(** X8. When the runtime works for a while without searching and then
    raises, the session ends in ["error"]. Its log holds the entry of the
    start, stamped with the time at which the crew was built, and an entry
    ["Process Error"], stamped with the time at which the runtime gave up,
    with the message of the runtime behind the prefix
    ["Error in research process: "]; the stored message carries that
    prefix twice, once from the orchestrator and once from the worker. *)
Theorem runtime_failure_message E session_id research_goal s serpapi_key g e
    d :
  contains (ascii_of_N 0) s = false ->
  (forall what h, construct E what h = Ok tt) ->
  (forall text h, kickoff E text h = Wait d (Finish (Raise e))) ->
  let g' :=
    snd (research_worker E session_id research_goal (VStr s) serpapi_key g) in
  exists built,
    (now g <= built)%Q /\
    research_processes g' !! session_id = Some "error" /\
    research_results g' !! session_id =
      Some (VDict [("error",
                    VStr ("Error in research process: "
                          +:+ ("Error in research process: " +:+ e)))]) /\
    research_logs g' !! session_id =
      Some [log_entry (strftime E built) "Supervisor" "Process Started"
              ("Goal: " +:+ str research_goal);
            log_entry (strftime E (built + secs d)) "Supervisor"
              "Process Error" ("Error in research process: " +:+ e)].
Proof.
  intros Hclean Hbuild Hraise g'. subst g'.
  rewrite research_worker_spec, EnhancedAICoScientist_init_spec, Hclean.
  unfold run_research_process, mbind, M_bind, bind, on_snd.
  match goal with
  | |- context [create_crew E ?h] =>
      pose proof (create_crew_ok E h Hbuild) as Hok;
      pose proof (create_crew_state E h) as Hstate;
      pose proof (create_crew_mono E h) as Hmono;
      destruct (create_crew E h) as [r g0]
  end.
  simpl in Hok, Hstate, Hmono. subst r.
  set (built := now g0) in *. clearbody built. subst g0.
  exists built. split; [exact Hmono|].
  unfold gets, modify, try_except, with_search_tool, mret, M_ret, ret, raise.
  simpl. rewrite Hraise. simpl.
  unfold log_activity, log_append. simpl.
  rewrite !lookup_insert_eq. simpl. rewrite !lookup_insert_eq.
  split; [reflexivity|]. split; [reflexivity|].
  unfold set_research_logs. simpl. apply lookup_insert_eq.
Qed.

Lemma runtime_failure_message_witness :
  let g' :=
    snd (research_worker runtime_raises "research_1700000000" (VStr "goal")
           (VStr "sk-test") VNone boot) in
  exists built,
    (now boot <= built)%Q /\
    research_processes g' !! "research_1700000000" = Some "error" /\
    research_results g' !! "research_1700000000" =
      Some (VDict [("error",
                    VStr ("Error in research process: "
                          +:+ ("Error in research process: "
                               +:+ "rate limit exceeded")))]) /\
    research_logs g' !! "research_1700000000" =
      Some [log_entry (strftime runtime_raises built) "Supervisor"
              "Process Started" ("Goal: " +:+ str (VStr "goal"));
            log_entry
              (strftime runtime_raises
                 (built + secs {| dnum := 3; dden := 1 |}))
              "Supervisor" "Process Error"
              ("Error in research process: " +:+ "rate limit exceeded")].
Proof.
  apply (runtime_failure_message runtime_raises "research_1700000000"
           (VStr "goal") "sk-test" VNone boot "rate limit exceeded"
           {| dnum := 3; dden := 1 |}).
  - reflexivity.
  - intros what h. reflexivity.
  - intros text h. reflexivity.
Defined.

(** ** What the cache holds *)

Lemma func_cache_new E query self g k v :
  cache (fst (snd (func E query (self, g)))) !! k = Some v ->
  cache self !! k = Some v \/ (k = cache_key query /\ is_bundle v).
Proof.
  destruct (cache self !! cache_key query) as [cached|] eqn:Hc.
  - rewrite (func_hit _ _ _ _ _ Hc). auto.
  - destruct (Z_lt_le_dec (query_count self) (max_queries_per_session self))
      as [Hlt|Hge].
    + destruct (func_within_budget E self query g Hc Hlt) as (r & Hr & ->).
      rewrite search_backends_spec in Hr. simpl in Hr. simpl.
      destruct (decide (k = cache_key query)) as [->|Hne].
      * rewrite lookup_insert_eq. intros Hv. right. split; [reflexivity|].
        inversion Hv; subst v. inversion Hr; subst r.
        eexists _, _. reflexivity.
      * rewrite lookup_insert_ne by congruence. auto.
    + rewrite (func_over_budget _ _ _ _ Hc Hge). auto.
Qed.

(** A tool that starts with an empty cache never holds anything in it but
    bundles of the two searches. *)
Lemma evolves_cache_bundles E start self k v :
  cache start = ∅ ->
  evolves E start self ->
  cache self !! k = Some v ->
  is_bundle v /\ v <> limit_reached /\ exists query, k = cache_key query.
Proof.
  intros Hempty Hev. revert k v.
  induction Hev as [self|self self1 self2 query g r g' _ IH Hcall];
    intros k v Hk.
  - rewrite Hempty, lookup_empty in Hk. discriminate.
  - pose proof (func_cache_new E query self1 g k v) as Hnew.
    rewrite Hcall in Hnew. simpl in Hnew.
    destruct (Hnew Hk) as [Hold | [-> Hb]]; [exact (IH Hempty k v Hold)|].
    split; [exact Hb|]. split; [|eauto].
    destruct Hb as (a & w & ->). discriminate.
Qed.

(** X9. The cache of the search tool of a job, whatever calls the tool has
    served since the orchestrator was built, holds nothing but bundles of
    the two searches, each under the normalised text of a query that was
    asked: the value returned when the budget is used up never gets into
    it. *)
Theorem cache_holds_bundles E session_id openai_api_key serpapi_key g
    scientist g' self k v :
  EnhancedAICoScientist_init session_id openai_api_key serpapi_key g
    = (Ok scientist, g') ->
  evolves E (search_tool scientist) self ->
  cache self !! k = Some v ->
  is_bundle v /\ v <> limit_reached /\ exists query, k = cache_key query.
Proof.
  intros Hinit. apply evolves_cache_bundles.
  rewrite EnhancedAICoScientist_init_spec in Hinit.
  destruct openai_api_key as [| | |s| |]; try discriminate.
  destruct (contains (ascii_of_N 0) s); [discriminate|].
  inversion Hinit; subst. reflexivity.
Qed.

Lemma cache_holds_bundles_witness :
  let v := VDict [("arxiv", VList []); ("web", VList [])] in
  is_bundle v /\ v <> limit_reached /\ exists query, "q1" = cache_key query.
Proof.
  intros v.
  pose (tool :=
          set_session_id "research_1700000000"
            (EnhancedSearchTool_init (<["serpapi" := VStr "serp-key"]> ∅))).
  apply (cache_holds_bundles quiet "research_1700000000" (VStr "sk-test")
           (VStr "serp-key") boot
           {| scientist_session_id := "research_1700000000";
              search_tool := tool |}
           (snd (EnhancedAICoScientist_init "research_1700000000"
                   (VStr "sk-test") (VStr "serp-key") boot))
           (fst (snd (func quiet "q1" (tool, busy)))) "q1" v).
  - vm_compute. reflexivity.
  - apply (evolves_call quiet _ tool _ "q1" busy
             (fst (func quiet "q1" (tool, busy)))
             (snd (snd (func quiet "q1" (tool, busy))))).
    + apply evolves_refl.
    + vm_compute. reflexivity.
  - vm_compute. reflexivity.
Defined.

(** ** Session ids *)

(** X10. Two session ids are equal exactly when they were made in the same
    whole second. *)
Theorem new_session_id_same_second t1 t2 :
  new_session_id t1 = new_session_id t2 <-> int t1 = int t2.
Proof.
  unfold new_session_id. split.
  - intros Heq. apply (inj (String.append "research_")) in Heq.
    apply (inj pretty) in Heq. exact Heq.
  - intros ->. reflexivity.
Qed.

(** ** Normalisation of queries *)

Lemma lower_char_idempotent c : lower_char (lower_char c) = lower_char c.
Proof.
  destruct c as [[] [] [] [] [] [] [] []]; reflexivity.
Qed.

Lemma isspace_lower_char c : isspace (lower_char c) = isspace c.
Proof.
  destruct c as [[] [] [] [] [] [] [] []]; reflexivity.
Qed.

Lemma lower_idempotent s : lower (lower s) = lower s.
Proof.
  induction s as [|c s IH]; simpl; [reflexivity|].
  rewrite lower_char_idempotent, IH. reflexivity.
Qed.

Lemma lower_app s1 s2 : lower (s1 +:+ s2) = lower s1 +:+ lower s2.
Proof.
  induction s1 as [|c s1 IH]; simpl; [reflexivity|].
  rewrite IH. reflexivity.
Qed.

Lemma all_space_lower s : all_space (lower s) = all_space s.
Proof.
  induction s as [|c s IH]; simpl; [reflexivity|].
  rewrite isspace_lower_char, IH. reflexivity.
Qed.

Lemma lstrip_lower s : lstrip (lower s) = lower (lstrip s).
Proof.
  induction s as [|c s IH]; simpl; [reflexivity|].
  rewrite isspace_lower_char. destruct (isspace c); [exact IH | reflexivity].
Qed.

Lemma rstrip_lower s : rstrip (lower s) = lower (rstrip s).
Proof.
  induction s as [|c s IH]; simpl; [reflexivity|].
  rewrite IH, isspace_lower_char.
  destruct (rstrip s); simpl; [|reflexivity].
  destruct (isspace c); reflexivity.
Qed.

Lemma strip_lower s : strip (lower s) = lower (strip s).
Proof.
  unfold strip. rewrite lstrip_lower. apply rstrip_lower.
Qed.

Lemma rstrip_idempotent s : rstrip (rstrip s) = rstrip s.
Proof.
  induction s as [|c s IH]; simpl; [reflexivity|].
  destruct (rstrip s) as [|c' t] eqn:Hr.
  - destruct (isspace c) eqn:Hc; simpl; [reflexivity|].
    rewrite Hc. reflexivity.
  - change (rstrip (String c (String c' t)))
      with (match rstrip (String c' t) with
            | EmptyString =>
                if isspace c then EmptyString else String c EmptyString
            | u => String c u
            end).
    rewrite IH. reflexivity.
Qed.

(** Stripping on the right leaves a first character that is not
    whitespace where it is. *)
Lemma lstrip_rstrip_lstrip s : lstrip (rstrip (lstrip s)) = rstrip (lstrip s).
Proof.
  induction s as [|c s IH]; simpl; [reflexivity|].
  destruct (isspace c) eqn:Hc; [exact IH|].
  simpl. destruct (rstrip s); rewrite ?Hc; simpl; rewrite Hc; reflexivity.
Qed.

Lemma strip_idempotent s : strip (strip s) = strip s.
Proof.
  unfold strip. rewrite lstrip_rstrip_lstrip. apply rstrip_idempotent.
Qed.

(** X11. Normalising a query a second time changes nothing: asking for the
    text under which a bundle is cached finds that bundle. *)
Theorem cache_key_idempotent query :
  cache_key (cache_key query) = cache_key query.
Proof.
  unfold cache_key.
  rewrite strip_lower, strip_idempotent, <- strip_lower, lower_idempotent.
  reflexivity.
Qed.

Lemma all_space_lstrip s : all_space s = true -> lstrip s = EmptyString.
Proof.
  induction s as [|c s IH]; simpl; [reflexivity|].
  intros H. apply andb_true_iff in H as [-> Hs]. exact (IH Hs).
Qed.

Lemma all_space_rstrip s : all_space s = true -> rstrip s = EmptyString.
Proof.
  induction s as [|c s IH]; simpl; [reflexivity|].
  intros H. apply andb_true_iff in H as [-> Hs]. rewrite (IH Hs).
  reflexivity.
Qed.

Lemma lstrip_app_blank pre s :
  all_space pre = true -> lstrip (pre +:+ s) = lstrip s.
Proof.
  induction pre as [|c pre IH]; simpl; [reflexivity|].
  intros H. apply andb_true_iff in H as [-> Hs]. exact (IH Hs).
Qed.

Lemma rstrip_app_blank s post :
  all_space post = true -> rstrip (s +:+ post) = rstrip s.
Proof.
  intros Hpost. induction s as [|c s IH]; simpl.
  - apply all_space_rstrip. exact Hpost.
  - rewrite IH. reflexivity.
Qed.

Lemma strip_app_blank s post :
  all_space post = true -> strip (s +:+ post) = strip s.
Proof.
  intros Hpost. unfold strip. induction s as [|c s IH]; simpl.
  - change (rstrip (lstrip post) = EmptyString).
    rewrite (all_space_lstrip _ Hpost). reflexivity.
  - destruct (isspace c); [exact IH|].
    apply (rstrip_app_blank (String c s) post Hpost).
Qed.

(** X12. The text a query is cached under ignores the case of letters and
    any whitespace around the query. *)
Theorem cache_key_ignores_case_and_margins pre query post :
  all_space pre = true ->
  all_space post = true ->
  cache_key (pre +:+ query +:+ post) = cache_key query /\
  cache_key (lower query) = cache_key query.
Proof.
  intros Hpre Hpost. unfold cache_key. split.
  - rewrite !lower_app.
    unfold strip at 1. rewrite lstrip_app_blank
      by (rewrite all_space_lower; exact Hpre).
    fold (strip (lower query +:+ lower post)).
    apply strip_app_blank. rewrite all_space_lower. exact Hpost.
  - rewrite lower_idempotent. reflexivity.
Qed.

Lemma cache_key_ignores_case_and_margins_witness :
  cache_key ("  " +:+ "Quantum FOO" +:+ " ") = cache_key "Quantum FOO" /\
  cache_key (lower "Quantum FOO") = cache_key "Quantum FOO".
Proof.
  apply (cache_key_ignores_case_and_margins "  " "Quantum FOO" " ");
    reflexivity.
Defined.

(** ** Requests that are turned away *)

(** X13. A start request starts a worker exactly when both its research
    goal and its API key are present and true as Python values (an empty
    string, zero, [null] and an empty list are not). A request that is
    turned away is answered with 400 and leaves the process as it was: no
    log, no session, no thread. *)
Theorem start_research_accepts_iff data g :
  (is_Some (snd (start_research data g)) <->
   truthy (get data "research_goal") = true
   /\ truthy (get data "openai_api_key") = true) /\
  (snd (start_research data g) = None ->
   snd (fst (start_research data g)) = g /\
   snd (fst (fst (start_research data g))) = 400%Z).
Proof.
  unfold start_research.
  destruct (truthy (get data "research_goal")); simpl.
  - destruct (truthy (get data "openai_api_key")); simpl.
    + split; [split; eauto|]. discriminate.
    + split; [|auto]. split; [intros [t Ht]; discriminate|].
      intros [_ H]. discriminate.
  - split; [|auto]. split; [intros [t Ht]; discriminate|].
    intros [H _]. discriminate.
Qed.

(** X14. An API key that holds a null character cannot be put into the
    environment: the session of such a request ends in ["error"] with the
    message of that failure, and the environment keeps the key it had. *)
Theorem null_byte_key_fails E session_id research_goal s serpapi_key g :
  contains (ascii_of_N 0) s = true ->
  let g' :=
    snd (research_worker E session_id research_goal (VStr s) serpapi_key g) in
  research_processes g' !! session_id = Some "error" /\
  research_results g' !! session_id =
    Some (VDict [("error",
                  VStr "Error in research process: embedded null byte")]) /\
  environ g' = environ g /\
  research_logs g' = research_logs g.
Proof.
  intros Hnul g'. subst g'.
  rewrite research_worker_spec, EnhancedAICoScientist_init_spec, Hnul.
  simpl. rewrite !lookup_insert_eq. repeat split.
Qed.

Lemma null_byte_key_fails_witness :
  let g' :=
    snd (research_worker quiet "research_1700000000" (VStr "goal")
           (VStr (String (ascii_of_N 0) "sk")) VNone boot) in
  research_processes g' !! "research_1700000000" = Some "error" /\
  research_results g' !! "research_1700000000" =
    Some (VDict [("error",
                  VStr "Error in research process: embedded null byte")]) /\
  environ g' = environ boot /\
  research_logs g' = research_logs boot.
Proof.
  apply (null_byte_key_fails quiet "research_1700000000" (VStr "goal")
           (String (ascii_of_N 0) "sk") VNone boot).
  reflexivity.
Defined.

(** ** How long a search may be held back *)

(** X15. When the clock has not gone back behind the time the tool last
    recorded, a call of [func] asks to sleep at most once, for more than
    no time and for at most two seconds, and a query found in the cache
    produces no event at all. *)
Theorem func_sleeps_at_most_two_seconds E query self g :
  (last_query_time self <= now g)%Q ->
  exists new,
    events (snd (snd (func E query (self, g)))) = events g ++ new /\
    Forall short_sleep new /\
    count_events (fun ev => match ev with EvSleep _ _ => true | _ => false end)
      new <= 1 /\
    (is_Some (cache self !! cache_key query) -> new = []).
Proof.
  intros Hclock.
  assert (exists pre,
             events (admitted E self query g) = events g ++ pre /\
             Forall short_sleep pre /\
             count_events
               (fun ev => match ev with EvSleep _ _ => true | _ => false end)
               pre <= 1) as (pre & Hpre & Hshort & Hone).
  { unfold admitted. rewrite rate_limit_events. unfold log_search.
    rewrite log_append_events, log_append_now.
    eexists. split; [reflexivity|].
    destruct (QMicromega.Qlt_bool (now g - last_query_time self) 2) eqn:Hlt.
    - apply QMicromega.Qlt_bool_iff in Hlt.
      split; [|unfold count_events; simpl; lia].
      constructor; [|constructor]. simpl. split; lra.
    - split; [constructor | unfold count_events; simpl; lia]. }
  destruct (cache self !! cache_key query) as [cached|] eqn:Hc.
  - rewrite (func_hit _ _ _ _ _ Hc). simpl. unfold log_search.
    rewrite log_append_events. exists []. rewrite app_nil_r.
    split; [reflexivity|]. split; [constructor|].
    split; [unfold count_events; simpl; lia | reflexivity].
  - destruct (Z_lt_le_dec (query_count self) (max_queries_per_session self))
      as [Hlt|Hge].
    + destruct (func_within_budget_run E self query g Hc Hlt)
        as (self' & g' & -> & Hev & _).
      simpl. rewrite Hev, Hpre, <- app_assoc.
      eexists. split; [reflexivity|].
      split.
      * apply Forall_app. split; [exact Hshort|].
        constructor; [exact I|].
        destruct (_ && _); repeat constructor.
      * split; [|intros [v Hv]; discriminate].
        rewrite count_events_app.
        destruct (_ && _); unfold count_events at 2; simpl; lia.
    + rewrite (func_over_budget _ _ _ _ Hc Hge). simpl.
      exists pre. split; [exact Hpre|]. split; [exact Hshort|].
      split; [exact Hone|]. intros [v Hv]. discriminate.
Qed.

Lemma func_sleeps_at_most_two_seconds_witness :
  exists new,
    events (snd (snd (func quiet "q21" spent))) = events (snd spent) ++ new /\
    Forall short_sleep new /\
    count_events (fun ev => match ev with EvSleep _ _ => true | _ => false end)
      new <= 1 /\
    (is_Some (cache (fst spent) !! cache_key "q21") -> new = []).
Proof.
  pose proof (func_sleeps_at_most_two_seconds quiet "q21" (fst spent)
                (snd spent)) as H.
  rewrite <- surjective_pairing in H. apply H.
  vm_compute. discriminate.
Defined.
